(** * ee_partners: the partner dashboard's filtering and layout pipeline

    A shallow embedding of the logic of [App.jsx] (city normalisation, field
    derivation, filter domains, the filter effect and its event handlers) and
    of [TreeMapChart.jsx] (shade computation, chart data, tooltip placement).

    Conventions of the embedding
    - a JavaScript string is the list of its UTF-16 code units ([jsstring]);
    - a JSON field that may be absent is a [field]: [Undefined], [Null] or a
      string;
    - a Number that holds a count is a [jsnum]: [NaN] or [Num z] for the
      integer [z] (exact below 2^53, the range of the catalogue's counts);
    - [String.prototype.toLowerCase] is a built-in of the host: the model is
      parametrised by it ([Variable toLowerCase]) and every theorem holds for
      any such function.  [toLowerCaseBasic], its restriction to Basic Latin,
      is used to evaluate the model on ASCII inputs. *)

From Stdlib Require Import ZArith NArith QArith Qminmax List Bool Lia Lqa.
From Stdlib Require Import Permutation Sorted.
From Stdlib Require Import Strings.String Strings.Ascii.
Import ListNotations.

Local Open Scope Z_scope.
Local Open Scope list_scope.

(** ** Strings *)

Definition jsstring := list N.

(** An ASCII literal as code units. *)
Definition lit (s : string) : jsstring :=
  map N_of_ascii (list_ascii_of_string s).

Fixpoint jsstring_eqb (a b : jsstring) : bool :=
  match a, b with
  | [], [] => true
  | x :: a', y :: b' => N.eqb x y && jsstring_eqb a' b'
  | _, _ => false
  end.

(** [a < b] in code-unit order, the order [Array.prototype.sort] uses when it
    is given no comparator. *)
Fixpoint jsstring_ltb (a b : jsstring) : bool :=
  match a, b with
  | _, [] => false
  | [], _ :: _ => true
  | x :: a', y :: b' => N.ltb x y || (N.eqb x y && jsstring_ltb a' b')
  end.

Definition jsstring_leb (a b : jsstring) : bool := negb (jsstring_ltb b a).

Definition codeUnitOrder (a b : jsstring) : Prop := jsstring_leb a b = true.

(** WhiteSpace and LineTerminator code units (what [trim] and [parseInt]
    strip). *)
Definition isWhiteSpace (c : N) : bool :=
  existsb (N.eqb c)
    [9; 10; 11; 12; 13; 32; 160; 5760; 8232; 8233; 8239; 8287; 12288; 65279]%N
  || (N.leb 8192 c && N.leb c 8202).

Fixpoint dropWhile {A} (f : A -> bool) (l : list A) : list A :=
  match l with
  | [] => []
  | x :: l' => if f x then dropWhile f l' else l
  end.

Fixpoint takeWhile {A} (f : A -> bool) (l : list A) : list A :=
  match l with
  | [] => []
  | x :: l' => if f x then x :: takeWhile f l' else []
  end.

(** [String.prototype.trim] *)
Definition trim (s : jsstring) : jsstring :=
  rev (dropWhile isWhiteSpace (rev (dropWhile isWhiteSpace s))).

Fixpoint startsWith (s q : jsstring) : bool :=
  match q, s with
  | [], _ => true
  | _ :: _, [] => false
  | y :: q', x :: s' => N.eqb x y && startsWith s' q'
  end.

(** [String.prototype.includes] *)
Fixpoint includes (s q : jsstring) : bool :=
  startsWith s q ||
  match s with
  | [] => false
  | _ :: s' => includes s' q
  end.

(** [toLowerCase] on Basic Latin: A-Z go to a-z, other code units stay. *)
Definition toLowerCaseBasic (s : jsstring) : jsstring :=
  map (fun c => if N.leb 65 c && N.leb c 90 then (c + 32)%N else c) s.

Definition istanbul : jsstring := lit "istanbul".
(** 'İstanbul', with U+0130 in front. *)
Definition Istanbul : jsstring := 304%N :: lit "stanbul".
(** 'Türkiye', with U+00FC. *)
Definition Turkiye : jsstring := lit "T" ++ 252%N :: lit "rkiye".

(** ** JSON fields and numbers *)

Inductive field : Type :=
| Undefined
| Null
| Str (s : jsstring).

(** Truthiness of a field: [undefined], [null] and [''] are falsy. *)
Definition truthy (f : field) : bool :=
  match f with
  | Str (_ :: _) => true
  | _ => false
  end.

Definition field_is (f : field) (s : jsstring) : bool :=
  match f with
  | Str t => jsstring_eqb t s
  | _ => false
  end.

Inductive jsnum : Type :=
| NaN
| Num (z : Z).

(** [a <= b] on Numbers; false as soon as one side is [NaN]. *)
Definition num_leb (a b : jsnum) : bool :=
  match a, b with
  | Num x, Num y => Z.leb x y
  | _, _ => false
  end.

(** [Math.max(a, b)] *)
Definition num_max (a b : jsnum) : jsnum :=
  match a, b with
  | Num x, Num y => Num (Z.max x y)
  | _, _ => NaN
  end.

(** [Math.max(...xs, d)] *)
Definition math_max (xs : list jsnum) (d : Z) : jsnum :=
  fold_right num_max (Num d) xs.

(** [x || 0] on a Number: [NaN] and [0] are falsy. *)
Definition or_zero (x : jsnum) : jsnum :=
  match x with
  | NaN => Num 0
  | Num z => Num z
  end.

(** ** parseInt and the digit regex *)

Definition isDigit (c : N) : bool := N.leb 48 c && N.leb c 57.

Definition digitValue (radix : Z) (c : N) : option Z :=
  let v :=
    if N.leb 48 c && N.leb c 57 then Some (Z.of_N c - 48)
    else if N.leb 97 c && N.leb c 122 then Some (Z.of_N c - 87)
    else if N.leb 65 c && N.leb c 90 then Some (Z.of_N c - 55)
    else None in
  match v with
  | Some d => if Z.ltb d radix then Some d else None
  | None => None
  end.

(** The longest prefix of digits of the radix, read left to right:
    [None] when the prefix is empty. *)
Fixpoint parseDigits (radix : Z) (acc : option Z) (s : jsstring) : option Z :=
  match s with
  | [] => acc
  | c :: s' =>
      match digitValue radix c with
      | Some d =>
          parseDigits radix
            (Some (match acc with Some a => a * radix + d | None => d end)) s'
      | None => acc
      end
  end.

(** [parseInt(s)] with no radix argument.  [Num z] is the integer the digits
    denote; the Number the host returns is that integer as long as it does
    not exceed 2^53 in size, and is rounded above it, so a statement that
    fixes the value of a parse carries that bound. *)
Definition parseInt (s : jsstring) : jsnum :=
  let s1 := dropWhile isWhiteSpace s in
  let '(sign, s2) :=
    match s1 with
    | 45%N :: r => (-1, r)
    | 43%N :: r => (1, r)
    | _ => (1, s1)
    end in
  let '(radix, s3) :=
    match s2 with
    | 48%N :: 120%N :: r => (16, r)
    | 48%N :: 88%N :: r => (16, r)
    | _ => (10, s2)
    end in
  match parseDigits radix None s3 with
  | Some v => Num (sign * v)
  | None => NaN
  end.

(** [ToString] of a field, as [parseInt] applies it to its argument. *)
Definition fieldToString (f : field) : jsstring :=
  match f with
  | Undefined => lit "undefined"
  | Null => lit "null"
  | Str s => s
  end.

(** [f || '0'] *)
Definition or_zero_string (f : field) : jsstring :=
  if truthy f then fieldToString f else lit "0".

(** [s.match(/\d+/)?.[0]]: the leftmost maximal run of decimal digits. *)
Fixpoint matchDigits (s : jsstring) : option jsstring :=
  match s with
  | [] => None
  | c :: s' => if isDigit c then Some (takeWhile isDigit s) else matchDigits s'
  end.

(** [f?.match(/\d+/)?.[0] || '0'] *)
Definition firstDigitsOrZero (f : field) : jsstring :=
  match f with
  | Str s =>
      match matchDigits s with
      | Some (c :: r) => c :: r
      | _ => lit "0"
      end
  | _ => lit "0"
  end.

(** ** App.jsx *)

Module App.

(** *** Partner records *)

(** A record of [data.partners], with the fields the application reads. *)
Record RawPartner : Type := mkRaw {
  name : jsstring;
  level : field;
  city : field;
  country : field;
  references_count : field;
  average_project_size : field;
  large_project_size : field;
  certified_experts_count : field;
  district : field;
  profile_url : field
}.

(** An enhanced partner: [{...p, average_users, large_users, references,
    experts, displayCity, districtValue}]. *)
Record Partner : Type := mkPartner {
  raw : RawPartner;
  average_users : jsnum;
  large_users : jsnum;
  references : jsnum;
  experts : jsnum;
  displayCity : option jsstring;
  districtValue : jsnum
}.

(** The [filters] state object. *)
Record Filters : Type := mkFilters {
  levels : list jsstring;
  minReferences : jsnum;
  maxReferences : jsnum;
  selectedCities : list jsstring
}.

(** [levels.includes(x)] and [selectedCities.includes(x)] *)
Definition arrayIncludes (l : list jsstring) (x : jsstring) : bool :=
  existsb (jsstring_eqb x) l.

Definition arrayIncludesField (l : list jsstring) (x : field) : bool :=
  match x with
  | Str s => arrayIncludes l s
  | _ => false
  end.

Definition arrayIncludesOpt (l : list jsstring) (x : option jsstring) : bool :=
  match x with
  | Some s => arrayIncludes l s
  | None => false
  end.

Definition opt_eqb (a b : option jsstring) : bool :=
  match a, b with
  | None, None => true
  | Some x, Some y => jsstring_eqb x y
  | _, _ => false
  end.

(** [[...new Set(xs)]]: the distinct values, in order of first occurrence. *)
Fixpoint setOf (seen xs : list (option jsstring)) : list (option jsstring) :=
  match xs with
  | [] => []
  | x :: xs' =>
      if existsb (opt_eqb x) seen then setOf seen xs'
      else x :: setOf (x :: seen) xs'
  end.

(** [.filter(Boolean)] on city names: [null] and [''] are dropped. *)
Fixpoint filterBoolean (xs : list (option jsstring)) : list jsstring :=
  match xs with
  | [] => []
  | Some (c :: r) :: xs' => (c :: r) :: filterBoolean xs'
  | _ :: xs' => filterBoolean xs'
  end.

(** [.sort()] with the default comparator, as a stable insertion sort. *)
Fixpoint insertSorted (x : jsstring) (l : list jsstring) : list jsstring :=
  match l with
  | [] => [x]
  | y :: l' => if jsstring_leb x y then x :: l else y :: insertSorted x l'
  end.

Definition sortStrings (l : list jsstring) : list jsstring :=
  fold_right insertSorted [] l.

Definition nonEmpty (s : jsstring) : bool :=
  match s with
  | [] => false
  | _ :: _ => true
  end.

Section WithToLowerCase.

(** [String.prototype.toLowerCase] *)
Variable toLowerCase : jsstring -> jsstring.

(** [normalizeCity], App.jsx lines 9-17. *)
Definition normalizeCity (city : field) : option jsstring :=
  if negb (truthy city) then None
  else
    let normalized := trim (fieldToString city) in
    if jsstring_eqb (toLowerCase normalized) istanbul
       || jsstring_eqb normalized Istanbul
    then Some Istanbul
    else Some normalized.

(** The body of [data.partners.map(p => ...)], App.jsx lines 42-53. *)
Definition enhance (p : RawPartner) : Partner :=
  let rawCity := if field_is (city p) Turkiye then country p else city p in
  {| raw := p;
     average_users := parseInt (firstDigitsOrZero (average_project_size p));
     large_users := parseInt (firstDigitsOrZero (large_project_size p));
     references := parseInt (or_zero_string (references_count p));
     experts := parseInt (or_zero_string (certified_experts_count p));
     displayCity := normalizeCity rawCity;
     districtValue := or_zero (parseInt (fieldToString (district p))) |}.

(** [maxRefs] and [uniqueCities], App.jsx lines 59-60. *)
Definition maxRefs (enhancedPartners : list Partner) : jsnum :=
  math_max (map references enhancedPartners) 100.

Definition uniqueCities (enhancedPartners : list Partner) : list jsstring :=
  sortStrings (filterBoolean (setOf [] (map displayCity enhancedPartners))).

(** The search predicate of the filter effect (lines 81-84). *)
Definition matchesSearch (query : jsstring) (p : Partner) : bool :=
  includes (toLowerCase (name (raw p))) query
  || match displayCity p with
     | Some c => includes (toLowerCase c) query
     | None => false
     end.

Definition inReferenceRange (f : Filters) (p : Partner) : bool :=
  num_leb (minReferences f) (references p)
  && num_leb (references p) (maxReferences f).

(** The filter effect, App.jsx lines 75-102: the value handed to
    [setFilteredPartners]. *)
Definition applyFilters (partners : list Partner) (searchQuery : jsstring)
    (filters : Filters) : list Partner :=
  let result := partners in
  let result :=
    if nonEmpty searchQuery then
      let query := toLowerCase searchQuery in
      filter (matchesSearch query) result
    else result in
  let result :=
    if (0 <? List.length (levels filters))%nat
    then filter (fun p => arrayIncludesField (levels filters) (level (raw p)))
           result
    else result in
  let result := filter (inReferenceRange filters) result in
  let result :=
    filter (fun p => arrayIncludesOpt (selectedCities filters) (displayCity p))
      result in
  result.

(** *** The component state and its handlers *)

Record AppState : Type := mkApp {
  partners : list Partner;
  filteredPartners : list Partner;
  loading : bool;
  searchQuery : jsstring;
  sidebarOpen : bool;
  filters : Filters;
  areaMetric : jsstring
}.

Definition initialFilters : Filters :=
  {| levels := [lit "Gold"; lit "Silver"; lit "Ready"];
     minReferences := Num 0;
     maxReferences := Num 100;
     selectedCities := [] |}.

(** The state of the first render. *)
Definition initialState : AppState :=
  {| partners := [];
     filteredPartners := [];
     loading := true;
     searchQuery := [];
     sidebarOpen := true;
     filters := initialFilters;
     areaMetric := lit "references" |}.

Definition setFilters (f : Filters -> Filters) (s : AppState) : AppState :=
  {| partners := partners s;
     filteredPartners := filteredPartners s;
     loading := loading s;
     searchQuery := searchQuery s;
     sidebarOpen := sidebarOpen s;
     filters := f (filters s);
     areaMetric := areaMetric s |}.

Definition setFilteredPartners (r : list Partner) (s : AppState) : AppState :=
  {| partners := partners s;
     filteredPartners := r;
     loading := loading s;
     searchQuery := searchQuery s;
     sidebarOpen := sidebarOpen s;
     filters := filters s;
     areaMetric := areaMetric s |}.

(** The keys the sidebar passes to [updateFilter]. *)
Inductive FilterKey : Type :=
| KeyMinReferences
| KeyMaxReferences.

Inductive Event : Type :=
| Loaded (data : list RawPartner)
| LoadFailed
| SetSearchQuery (q : jsstring)
| UpdateFilter (key : FilterKey) (value : jsnum)
| ToggleLevel (lv : jsstring)
| ToggleCity (c : jsstring)
| SetAreaMetric (m : jsstring).

Definition removeString (x : jsstring) (l : list jsstring) : list jsstring :=
  filter (fun y => negb (jsstring_eqb y x)) l.

(** [prev.xs.includes(x) ? prev.xs.filter(y => y !== x) : [...prev.xs, x]] *)
Definition toggle (x : jsstring) (l : list jsstring) : list jsstring :=
  if arrayIncludes l x then removeString x l else l ++ [x].

(** The state updates each callback queues (lines 40-71 and 104-124). *)
Definition handle (e : Event) (s : AppState) : AppState :=
  match e with
  | Loaded data =>
      let enhancedPartners := map enhance data in
      {| partners := enhancedPartners;
         filteredPartners := enhancedPartners;
         loading := false;
         searchQuery := searchQuery s;
         sidebarOpen := sidebarOpen s;
         filters :=
           {| levels := levels (filters s);
              minReferences := minReferences (filters s);
              maxReferences := maxRefs enhancedPartners;
              selectedCities := uniqueCities enhancedPartners |};
         areaMetric := areaMetric s |}
  | LoadFailed =>
      {| partners := partners s;
         filteredPartners := filteredPartners s;
         loading := false;
         searchQuery := searchQuery s;
         sidebarOpen := sidebarOpen s;
         filters := filters s;
         areaMetric := areaMetric s |}
  | SetSearchQuery q =>
      {| partners := partners s;
         filteredPartners := filteredPartners s;
         loading := loading s;
         searchQuery := q;
         sidebarOpen := sidebarOpen s;
         filters := filters s;
         areaMetric := areaMetric s |}
  | UpdateFilter KeyMinReferences v =>
      setFilters (fun prev =>
        {| levels := levels prev; minReferences := v;
           maxReferences := maxReferences prev;
           selectedCities := selectedCities prev |}) s
  | UpdateFilter KeyMaxReferences v =>
      setFilters (fun prev =>
        {| levels := levels prev; minReferences := minReferences prev;
           maxReferences := v;
           selectedCities := selectedCities prev |}) s
  | ToggleLevel lv =>
      setFilters (fun prev =>
        {| levels := toggle lv (levels prev);
           minReferences := minReferences prev;
           maxReferences := maxReferences prev;
           selectedCities := selectedCities prev |}) s
  | ToggleCity c =>
      setFilters (fun prev =>
        {| levels := levels prev;
           minReferences := minReferences prev;
           maxReferences := maxReferences prev;
           selectedCities := toggle c (selectedCities prev) |}) s
  | SetAreaMetric m =>
      {| partners := partners s;
         filteredPartners := filteredPartners s;
         loading := loading s;
         searchQuery := searchQuery s;
         sidebarOpen := sidebarOpen s;
         filters := filters s;
         areaMetric := m |}
  end.

(** The fetch settles once, while [loading] is still set; until then the
    component renders the spinner alone (lines 126-137), so the header, the
    sidebar and the metric buttons raise events only afterwards. *)
Definition enabled (e : Event) (s : AppState) : bool :=
  match e with
  | Loaded _ | LoadFailed => loading s
  | _ => negb (loading s)
  end.

(** One run of the filter effect. *)
Definition runFilterEffect (s : AppState) : AppState :=
  setFilteredPartners (applyFilters (partners s) (searchQuery s) (filters s)) s.

(** The effect's dependency array, [[partners, searchQuery, filters]]. *)
Definition deps (s : AppState) : list Partner * jsstring * Filters :=
  (partners s, searchQuery s, filters s).

(** From one settled render to the next.  After the handler's updates the
    effect runs when a dependency changed; when all three kept their value
    React may still see a fresh object and run it, or skip it. *)
Inductive step : AppState -> AppState -> Prop :=
| step_run (e : Event) (s : AppState) :
    enabled e s = true ->
    step s (runFilterEffect (handle e s))
| step_skip (e : Event) (s : AppState) :
    enabled e s = true ->
    deps (handle e s) = deps s ->
    step s (handle e s).

(** States the application can settle in: the mount (where the effect runs
    once) and what events lead to. *)
Inductive reachable : AppState -> Prop :=
| reach_mount : reachable (runFilterEffect initialState)
| reach_step (s s' : AppState) : reachable s -> step s s' -> reachable s'.

End WithToLowerCase.

End App.

(** ** TreeMapChart.jsx *)

Module TreeMapChart.

(** An entry of [COLORS]. *)
Record Base : Type := mkBase { h : Z; s : Z; l : Z }.

Definition Gold : Base := {| h := 28; s := 80; l := 52 |}.
Definition Silver : Base := {| h := 204; s := 70; l := 53 |}.
Definition Ready : Base := {| h := 145; s := 63; l := 42 |}.

(** The names every object answers to through [Object.prototype]. *)
Definition objectPrototypeKeys : list jsstring :=
  [lit "constructor"; lit "toString"; lit "toLocaleString"; lit "valueOf";
   lit "hasOwnProperty"; lit "isPrototypeOf"; lit "propertyIsEnumerable";
   lit "__proto__"; lit "__defineGetter__"; lit "__defineSetter__";
   lit "__lookupGetter__"; lit "__lookupSetter__"].

(** What a property read on [COLORS] finds: an entry of the literal, or a
    member of [Object.prototype] (a function, or the prototype itself), which
    is truthy and has no [h], [s] or [l]. *)
Inductive ColorEntry : Type :=
| Palette (b : Base)
| Inherited.

(** [COLORS[level]]; the key is the level converted to a string, and [None]
    is [undefined]. *)
Definition COLORS (level : field) : option ColorEntry :=
  let key := fieldToString level in
  if jsstring_eqb key (lit "Gold") then Some (Palette Gold)
  else if jsstring_eqb key (lit "Silver") then Some (Palette Silver)
  else if jsstring_eqb key (lit "Ready") then Some (Palette Ready)
  else if existsb (jsstring_eqb key) objectPrototypeKeys then Some Inherited
  else None.

(** The three holes of the [hsl(h, s%, lightness%)] template; a hue or a
    saturation that is [undefined] and a lightness that is [NaN] are [None].
    Arithmetic is exact, on rationals. *)
Record Hsl : Type := mkHsl {
  hue : option Z;
  saturation : option Z;
  lightness : option Q
}.

(** [COLORS[level] || COLORS.Ready] *)
Definition baseColor (level : field) : ColorEntry :=
  match COLORS level with Some c => c | None => Palette Ready end.

(** [base.h], [base.s] and [base.l]; [None] is [undefined]. *)
Definition base_h (base : ColorEntry) : option Z :=
  match base with Palette b => Some (h b) | Inherited => None end.

Definition base_s (base : ColorEntry) : option Z :=
  match base with Palette b => Some (s b) | Inherited => None end.

Definition base_l (base : ColorEntry) : option Z :=
  match base with Palette b => Some (l b) | Inherited => None end.

(** [getColorWithShade], lines 13-18. *)
Definition getColorWithShade (level : field) (value maxValue : jsnum) : Hsl :=
  let base := baseColor level in
  let ratio :=
    match value, num_max maxValue (Num 1) with
    | Num v, Num m => Some (Qmin (inject_Z v / inject_Z m) 1)
    | _, _ => None
    end in
  let lightness :=
    match base_l base, ratio with
    | Some bl, Some r => Some (inject_Z bl + (1 - r) * 12)%Q
    | _, _ => None
    end in
  {| hue := base_h base; saturation := base_s base; lightness := lightness |}.

(** The props of a box that [CustomizedContent] uses for its fill. *)
Record ChartEntry : Type := mkEntry {
  name : jsstring;
  size : jsnum;
  level : field;
  references : jsnum;
  average_users : jsnum;
  districtValue : jsnum;
  large_users : jsnum;
  experts : jsnum;
  displayCity : option jsstring;
  profile_url : field;
  index : nat;
  maxMetric : jsnum
}.


(** [maxMetric], lines 134-136. *)
Definition computeMaxMetric (partners : list App.Partner) : jsnum :=
  math_max (map App.references partners) 1.

(** The body of [partners.map((p, index) => ...)], lines 169-192. *)
Definition toEntry (areaMetric : jsstring) (maxMetric : jsnum)
    (p : App.Partner) (index : nat) : ChartEntry :=
  let sizeValue :=
    if jsstring_eqb areaMetric (lit "district")
    then num_max (App.districtValue p) (Num 1)
    else num_max (App.references p) (Num 1) in
  {| name := App.name (App.raw p);
     size := sizeValue;
     level := App.level (App.raw p);
     references := App.references p;
     average_users := App.average_users p;
     districtValue := App.districtValue p;
     large_users := App.large_users p;
     experts := App.experts p;
     displayCity := App.displayCity p;
     profile_url := App.profile_url (App.raw p);
     index := index;
     maxMetric := maxMetric |}.

Fixpoint mapIndexed {A B} (f : A -> nat -> B) (i : nat) (xs : list A) : list B :=
  match xs with
  | [] => []
  | x :: xs' => f x i :: mapIndexed f (S i) xs'
  end.

(** [(a, b) => b.size - a.size]; a [NaN] difference counts as [0]. *)
Definition bySizeDesc (a b : ChartEntry) : Z :=
  match size b, size a with
  | Num sb, Num sa => sb - sa
  | _, _ => 0
  end.

(** [.sort(cmp)], as a stable insertion sort. *)
Fixpoint insertBy (cmp : ChartEntry -> ChartEntry -> Z) (x : ChartEntry)
    (xs : list ChartEntry) : list ChartEntry :=
  match xs with
  | [] => [x]
  | y :: xs' => if cmp x y <=? 0 then x :: xs else y :: insertBy cmp x xs'
  end.

Definition sortBy (cmp : ChartEntry -> ChartEntry -> Z)
    (xs : list ChartEntry) : list ChartEntry :=
  fold_right (insertBy cmp) [] xs.

(** [chartData], lines 165-194. *)
Definition chartData (partners : list App.Partner) (areaMetric : jsstring)
    (maxMetric : jsnum) : list ChartEntry :=
  match partners with
  | [] => []
  | _ :: _ => sortBy bySizeDesc (mapIndexed (toEntry areaMetric maxMetric) 0 partners)
  end.

(** *** Tooltip placement *)

Record MouseEvent : Type := mkMouse { clientX : Z; clientY : Z }.
Record Window : Type := mkWindow { innerWidth : Z; innerHeight : Z }.
Record Pos : Type := mkPos { x : Z; y : Z }.

(** [containerRef.current] is set while the wrapper is rendered, which is
    when [partners.length] is not zero (lines 206-219). *)
Definition containerMounted (partners : list App.Partner) : bool :=
  match partners with
  | [] => false
  | _ :: _ => true
  end.

(** The floating tooltip is rendered inside the wrapper, when [tooltipData]
    is set (lines 232-233). *)
Definition tooltipRendered (partners : list App.Partner)
    (tooltipData : option ChartEntry) : bool :=
  containerMounted partners
  && match tooltipData with Some _ => true | None => false end.

(** [handleMouseMove], lines 139-159: the next value of [tooltipPos]. *)
Definition handleMouseMove (containerCurrent : bool) (window : Window)
    (e : MouseEvent) (tooltipPos : Pos) : Pos :=
  if negb containerCurrent then tooltipPos
  else
    let viewportWidth := innerWidth window in
    let viewportHeight := innerHeight window in
    let tooltipWidth := 220 in
    let tooltipHeight := 180 in
    let posX := clientX e + 16 in
    let posY := clientY e + 16 in
    let posX :=
      if clientX e + tooltipWidth + 30 >? viewportWidth
      then clientX e - tooltipWidth - 16 else posX in
    let posY :=
      if clientY e + tooltipHeight + 30 >? viewportHeight
      then clientY e - tooltipHeight - 16 else posY in
    {| x := posX; y := posY |}.

End TreeMapChart.

(** ** Sidebar.jsx *)

Module Sidebar.

(** The tiers the sidebar offers as checkboxes:
    [['Gold', 'Silver', 'Ready'].map(level => ...)]. *)
Definition levelOptions : list jsstring :=
  [lit "Gold"; lit "Silver"; lit "Ready"].

End Sidebar.

(** ** Properties stated by the specification, in its words *)

Module Spec.

Section WithToLowerCase.

Variable toLowerCase : jsstring -> jsstring.

(** The criteria the filter pipeline applies: the search text, when there
    is one, occurs in the lowercased name or the lowercased display city; the
    tier, when some tier is selected, is a selected one; the reference count
    lies within the bounds; the display city is a selected one. *)
Definition Criteria (q : jsstring) (f : App.Filters) (p : App.Partner) : Prop :=
  (q <> [] ->
     includes (toLowerCase (App.name (App.raw p))) (toLowerCase q) = true
     \/ exists c, App.displayCity p = Some c
                 /\ includes (toLowerCase c) (toLowerCase q) = true)
  /\ (App.levels f <> [] ->
      exists lv, App.level (App.raw p) = Str lv /\ In lv (App.levels f))
  /\ (exists lo r hi,
        App.minReferences f = Num lo /\ App.references p = Num r
        /\ App.maxReferences f = Num hi /\ lo <= r <= hi)
  /\ (exists c, App.displayCity p = Some c /\ In c (App.selectedCities f)).

(** The same criteria as a test. *)
Definition passesCriteria (q : jsstring) (f : App.Filters) (p : App.Partner)
    : bool :=
  (negb (App.nonEmpty q) || App.matchesSearch toLowerCase (toLowerCase q) p)
  && (match App.levels f with
      | [] => true
      | _ :: _ => App.arrayIncludesField (App.levels f) (App.level (App.raw p))
      end)
  && App.inReferenceRange f p
  && App.arrayIncludesOpt (App.selectedCities f) (App.displayCity p).

(** The criteria as first listed: search text in the name or the display
    city as they stand, reference bounds, selected city. *)
Definition ListedCriteria (q : jsstring) (f : App.Filters) (p : App.Partner)
    : Prop :=
  (q <> [] ->
     includes (App.name (App.raw p)) (toLowerCase q) = true
     \/ exists c, App.displayCity p = Some c
                 /\ includes c (toLowerCase q) = true)
  /\ (exists lo r hi,
        App.minReferences f = Num lo /\ App.references p = Num r
        /\ App.maxReferences f = Num hi /\ lo <= r <= hi)
  /\ (exists c, App.displayCity p = Some c /\ In c (App.selectedCities f)).

(** What holds of every state the application settles in: the visible
    subset is the effect's result on the current dependencies, and no
    partner is held while the fetch is pending. *)
Definition settled (s : App.AppState) : Prop :=
  App.filteredPartners s
  = App.applyFilters toLowerCase (App.partners s) (App.searchQuery s)
      (App.filters s)
  /\ (App.loading s = true -> App.partners s = []).

End WithToLowerCase.



(** The tier test of the level filter. *)
Definition tierOffered (p : App.Partner) : Prop :=
  exists lv, App.level (App.raw p) = Str lv /\ In lv Sidebar.levelOptions.

(** A filter state with another tier selection. *)
Definition withLevels (ls : list jsstring) (f : App.Filters) : App.Filters :=
  {| App.levels := ls;
     App.minReferences := App.minReferences f;
     App.maxReferences := App.maxReferences f;
     App.selectedCities := App.selectedCities f |}.

End Spec.

(** ** A small catalogue for evaluating the model *)

Module Catalogue.

Definition acme : App.RawPartner :=
  {| App.name := lit "Acme";
     App.level := Str (lit "Gold");
     App.city := Str (lit "Ankara");
     App.country := Str Turkiye;
     App.references_count := Str (lit "12");
     App.average_project_size := Str (lit "25 users");
     App.large_project_size := Str (lit "100+ users");
     App.certified_experts_count := Str (lit "3");
     App.district := Str (lit "85");
     App.profile_url := Str (lit "/partners/acme") |}.

Definition acme2 : App.RawPartner :=
  {| App.name := lit "acme2";
     App.level := Str (lit "Silver");
     App.city := Str (lit "Izmir");
     App.country := Str Turkiye;
     App.references_count := Str (lit "0");
     App.average_project_size := Null;
     App.large_project_size := Null;
     App.certified_experts_count := Null;
     App.district := Null;
     App.profile_url := Null |}.

(** A record with no city at all. *)
Definition nomad : App.RawPartner :=
  {| App.name := lit "Nomad";
     App.level := Str (lit "Ready");
     App.city := Null;
     App.country := Null;
     App.references_count := Str (lit "4");
     App.average_project_size := Null;
     App.large_project_size := Null;
     App.certified_experts_count := Null;
     App.district := Str (lit "40");
     App.profile_url := Null |}.

(** A record whose city is a single space. *)
Definition blank : App.RawPartner :=
  {| App.name := lit "Blank";
     App.level := Str (lit "Gold");
     App.city := Str (lit " ");
     App.country := Null;
     App.references_count := Str (lit "7");
     App.average_project_size := Null;
     App.large_project_size := Null;
     App.certified_experts_count := Null;
     App.district := Null;
     App.profile_url := Null |}.

(** A record of a tier the sidebar does not offer. *)
Definition platinum : App.RawPartner :=
  {| App.name := lit "Plato";
     App.level := Str (lit "Platinum");
     App.city := Str (lit "Ankara");
     App.country := Null;
     App.references_count := Str (lit "5");
     App.average_project_size := Null;
     App.large_project_size := Null;
     App.certified_experts_count := Null;
     App.district := Null;
     App.profile_url := Null |}.

(** A record whose counts read 'N/A'. *)
Definition unparsable : App.RawPartner :=
  {| App.name := lit "Acme";
     App.level := Str (lit "Gold");
     App.city := Str (lit "Ankara");
     App.country := Null;
     App.references_count := Str (lit "N/A");
     App.average_project_size := Null;
     App.large_project_size := Null;
     App.certified_experts_count := Str (lit "N/A");
     App.district := Str (lit "N/A");
     App.profile_url := Null |}.

Definition data : list App.RawPartner := [acme; acme2; nomad].

Definition enhanced : list App.Partner := map (App.enhance toLowerCaseBasic) data.

Definition goldOnly : App.Filters :=
  {| App.levels := [lit "Gold"];
     App.minReferences := Num 0;
     App.maxReferences := Num 100;
     App.selectedCities := [lit "Ankara"; lit "Izmir"] |}.

Definition noCities : App.Filters :=
  {| App.levels := [lit "Gold"; lit "Silver"; lit "Ready"];
     App.minReferences := Num 0;
     App.maxReferences := Num 100;
     App.selectedCities := [] |}.

Definition noLevels : App.Filters :=
  {| App.levels := [];
     App.minReferences := Num 0;
     App.maxReferences := Num 100;
     App.selectedCities := [lit "Ankara"; lit "Izmir"] |}.

(** Mounted, loaded with [data], then searched for 'acme'. *)
Definition searched : App.AppState :=
  App.runFilterEffect toLowerCaseBasic
    (App.handle toLowerCaseBasic (App.SetSearchQuery (lit "acme"))
       (App.runFilterEffect toLowerCaseBasic
          (App.handle toLowerCaseBasic (App.Loaded data)
             (App.runFilterEffect toLowerCaseBasic App.initialState)))).

End Catalogue.

(** ** TreeMapChart.jsx: the content of a box *)

Module CustomizedContent.

(** [a < b] and [a > b] on layout coordinates, which are rationals here. *)
Definition qltb (a b : Q) : bool := negb (Qle_bool b a).
Definition qgtb (a b : Q) : bool := qltb b a.

(** The props the treemap hands to the content of a node. *)
Record Props : Type := mkProps {
  x : Q;
  y : Q;
  width : Q;
  height : Q;
  name : jsstring;
  level : field;
  references : jsnum;
  districtValue : jsnum;
  index : nat;
  depth : nat;
  maxMetric : jsnum;
  areaMetric : jsstring
}.

(** [getFontSize], lines 42-47. *)
Definition getFontSize (rw rh : Q) : Z :=
  if qgtb rw 150 && qgtb rh 60 then 13
  else if qgtb rw 100 && qgtb rh 45 then 11
  else if qgtb rw 60 && qgtb rh 30 then 9
  else 8.

(** [getMaxChars], lines 50-56. *)
Definition getMaxChars (rw : Q) : nat :=
  if qgtb rw 180 then 28
  else if qgtb rw 140 then 22
  else if qgtb rw 100 then 16
  else if qgtb rw 70 then 12
  else 8.

(** The horizontal ellipsis, U+2026. *)
Definition ellipsis : N := 8230%N.

(** [truncateName], lines 58-61. *)
Definition truncateName (str : jsstring) (maxLen : nat) : jsstring :=
  if negb (App.nonEmpty str) then []
  else if (maxLen <? List.length str)%nat
       then firstn (maxLen - 1) str ++ [ellipsis]
       else str.

(** The two templates of [getStatDisplay]: [`%${districtValue}`] and
    [`${references} Ref`], with the number that fills the hole. *)
Inductive Stat : Type :=
| Percent (v : Z)
| Ref (v : Z).

(** [x > 0] on a Number, with the value when it holds. *)
Definition positive (n : jsnum) : option Z :=
  match n with
  | Num v => if 0 <? v then Some v else None
  | NaN => None
  end.

(** [getStatDisplay], lines 67-73; [None] is [null]. *)
Definition getStatDisplay (p : Props) : option Stat :=
  if jsstring_eqb (areaMetric p) (lit "district")
  then option_map Percent (positive (districtValue p))
  else option_map Ref (positive (references p)).

(** The name line and the stat line of a box. *)
Record Label : Type := mkLabel {
  text : jsstring;
  fontSize : Z;
  label_x : Q;
  label_y : Q
}.

Record StatLine : Type := mkStatLine {
  stat : Stat;
  stat_x : Q;
  stat_y : Q
}.

(** What the component returns when it draws: the rectangle with its fill,
    and the two optional text elements. *)
Record Rendered : Type := mkRendered {
  rect_x : Q;
  rect_y : Q;
  rect_width : Q;
  rect_height : Q;
  fill : TreeMapChart.Hsl;
  label : option Label;
  statLine : option StatLine
}.

(** [CustomizedContent], lines 21-126; [None] is [null]. *)
Definition render (p : Props) : option Rendered :=
  if Nat.eqb (depth p) 0 then None
  else
    let gutter := 4%Q in
    let rx := (x p + gutter)%Q in
    let ry := (y p + gutter)%Q in
    let rw := Qmax (width p - gutter * 2) 0 in
    let rh := Qmax (height p - gutter * 2) 0 in
    if qltb rw 15 || qltb rh 12 then None
    else
      let color :=
        TreeMapChart.getColorWithShade (level p) (references p) (maxMetric p) in
      let canShowText := qgtb rw 35 && qgtb rh 20 in
      let canShowStats := qgtb rw 70 && qgtb rh 45 in
      let fontSize := getFontSize rw rh in
      let maxChars := getMaxChars rw in
      let statDisplay := getStatDisplay p in
      Some
        {| rect_x := rx;
           rect_y := ry;
           rect_width := rw;
           rect_height := rh;
           fill := color;
           label :=
             if canShowText then
               Some
                 {| text := truncateName (name p) maxChars;
                    fontSize := fontSize;
                    label_x := (rx + rw / 2)%Q;
                    label_y :=
                      (ry + rh / 2
                       - (match statDisplay with
                          | Some _ => if canShowStats then 8 else 0
                          | None => 0
                          end))%Q |}
             else None;
           statLine :=
             match statDisplay with
             | Some st =>
                 if canShowStats then
                   Some {| stat := st;
                           stat_x := (rx + rw / 2)%Q;
                           stat_y := (ry + rh / 2 + 10)%Q |}
                 else None
             | None => None
             end |}.

(** The props of the box of a chart entry placed at a layout cell: the
    entry's fields first, then what the [content] element and the layout
    add. *)
Definition propsOf (e : TreeMapChart.ChartEntry) (areaMetric : jsstring)
    (x y width height : Q) (index depth : nat) : Props :=
  {| x := x; y := y; width := width; height := height;
     name := TreeMapChart.name e;
     level := TreeMapChart.level e;
     references := TreeMapChart.references e;
     districtValue := TreeMapChart.districtValue e;
     index := index;
     depth := depth;
     maxMetric := TreeMapChart.maxMetric e;
     areaMetric := areaMetric |}.

End CustomizedContent.

(** ** TreeMapChart.jsx: the tooltip state *)

Module Tooltip.

Record ChartState : Type := mkChart {
  tooltipData : option TreeMapChart.ChartEntry;
  tooltipPos : TreeMapChart.Pos
}.

Definition initialChart : ChartState :=
  {| tooltipData := None;
     tooltipPos := {| TreeMapChart.x := 0; TreeMapChart.y := 0 |} |}.

(** [handleMouseEnter], lines 196-200: [data && data.name]. *)
Definition handleMouseEnter (data : option TreeMapChart.ChartEntry)
    (s : ChartState) : ChartState :=
  match data with
  | Some d =>
      if App.nonEmpty (TreeMapChart.name d)
      then {| tooltipData := Some d; tooltipPos := tooltipPos s |}
      else s
  | None => s
  end.

(** [handleMouseLeave], lines 202-204. *)
Definition handleMouseLeave (s : ChartState) : ChartState :=
  {| tooltipData := None; tooltipPos := tooltipPos s |}.

Inductive ChartEvent : Type :=
| MouseEnter (data : option TreeMapChart.ChartEntry)
| MouseLeave
| MouseMove (window : TreeMapChart.Window) (e : TreeMapChart.MouseEvent).

(** One pointer event on a chart that shows [partners]. *)
Definition chartStep (partners : list App.Partner) (ev : ChartEvent)
    (s : ChartState) : ChartState :=
  match ev with
  | MouseEnter data => handleMouseEnter data s
  | MouseLeave => handleMouseLeave s
  | MouseMove window e =>
      {| tooltipData := tooltipData s;
         tooltipPos :=
           TreeMapChart.handleMouseMove (TreeMapChart.containerMounted partners)
             window e (tooltipPos s) |}
  end.

Definition run (partners : list App.Partner) (evs : list ChartEvent)
    (s : ChartState) : ChartState :=
  fold_left (fun st ev => chartStep partners ev st) evs s.

(** The location row of the floating tooltip, line 248:
    [displayCity || 'Türkiye']. *)
Definition locationShown (d : TreeMapChart.ChartEntry) : jsstring :=
  match TreeMapChart.displayCity d with
  | Some (c :: r) => c :: r
  | _ => Turkiye
  end.

End Tooltip.

(** ** Sidebar.jsx: what the controls raise *)

Module SidebarView.

(** [maxReferences] and [uniqueCities] as the sidebar recomputes them from
    its [partners] prop. *)
Definition maxReferences (partners : list App.Partner) : jsnum :=
  math_max (map App.references partners) 100.

Definition uniqueCities (partners : list App.Partner) : list jsstring :=
  App.sortStrings
    (App.filterBoolean (App.setOf [] (map App.displayCity partners))).

(** The events the sidebar's controls can raise in a state: a tier checkbox
    for each of [levelOptions], a city checkbox for each of [uniqueCities],
    the two sliders with [parseInt(e.target.value)]. *)
Definition offers (e : App.Event) (s : App.AppState) : Prop :=
  match e with
  | App.ToggleLevel lv => In lv Sidebar.levelOptions
  | App.ToggleCity c => In c (uniqueCities (App.partners s))
  | _ => True
  end.

Section WithToLowerCase.

Variable toLowerCase : jsstring -> jsstring.

(** A step of the application raised through the rendered controls. *)
Inductive uiStep : App.AppState -> App.AppState -> Prop :=
| ui_run (e : App.Event) (s : App.AppState) :
    App.enabled e s = true -> offers e s ->
    uiStep s (App.runFilterEffect toLowerCase (App.handle toLowerCase e s))
| ui_skip (e : App.Event) (s : App.AppState) :
    App.enabled e s = true -> offers e s ->
    App.deps (App.handle toLowerCase e s) = App.deps s ->
    uiStep s (App.handle toLowerCase e s).

Inductive uiReachable : App.AppState -> Prop :=
| ui_mount :
    uiReachable (App.runFilterEffect toLowerCase App.initialState)
| ui_step (s s' : App.AppState) :
    uiReachable s -> uiStep s s' -> uiReachable s'.

End WithToLowerCase.

End SidebarView.

(** ** Reference notions for the added properties *)

Module Ref.

(** The value of a string of decimal digits, most significant first. *)
Definition decimalValue (ds : jsstring) : Z :=
  fold_left (fun acc c => acc * 10 + (Z.of_N c - 48)) ds 0.

Definition allDigits (ds : jsstring) : Prop :=
  Forall (fun c => isDigit c = true) ds.

(** [q] occurs in [s] as a contiguous run of code units. *)
Definition Substring (q s : jsstring) : Prop :=
  exists pre post, s = pre ++ q ++ post.

(** A Number that is a count: an integer, not [NaN]. *)
Definition isNumber (n : jsnum) : Prop := exists z, n = Num z.

End Ref.

(** ** Facts about strings, numbers and lists *)

Lemma jsstring_eqb_eq (a b : jsstring) : jsstring_eqb a b = true <-> a = b.
Proof.
  revert b; induction a as [|x a IH]; intros [|y b]; simpl;
    try (split; [discriminate | intros H; discriminate H]);
    try (split; reflexivity).
  rewrite andb_true_iff, N.eqb_eq, IH.
  split.
  - intros [-> ->]; reflexivity.
  - intros H; injection H as -> ->; split; reflexivity.
Qed.

Lemma jsstring_eqb_refl (a : jsstring) : jsstring_eqb a a = true.
Proof. apply jsstring_eqb_eq; reflexivity. Qed.

Lemma arrayIncludes_In (l : list jsstring) (x : jsstring) :
  App.arrayIncludes l x = true <-> In x l.
Proof.
  unfold App.arrayIncludes.
  rewrite existsb_exists.
  split.
  - intros (y & Hy & E); apply jsstring_eqb_eq in E; subst; assumption.
  - intros H; exists x; split; [assumption | apply jsstring_eqb_refl].
Qed.

Lemma num_leb_le (a b : jsnum) :
  num_leb a b = true <-> exists x y, a = Num x /\ b = Num y /\ x <= y.
Proof.
  destruct a as [|x], b as [|y]; simpl;
    try (split; [discriminate | intros (? & ? & ? & ? & _); discriminate]).
  rewrite Z.leb_le.
  split.
  - intros H; exists x, y; auto.
  - intros (x' & y' & Ex & Ey & H); injection Ex as ->; injection Ey as ->;
      assumption.
Qed.

Lemma filter_filter_andb {A} (f g : A -> bool) (xs : list A) :
  filter g (filter f xs) = filter (fun a => f a && g a) xs.
Proof.
  induction xs as [|a xs IH]; simpl; [reflexivity|].
  destruct (f a); simpl; [destruct (g a)|]; rewrite IH; reflexivity.
Qed.

Lemma filter_none {A} (f : A -> bool) (xs : list A) :
  (forall a, f a = false) -> filter f xs = [].
Proof.
  intros H; induction xs as [|a xs IH]; simpl; [reflexivity|].
  rewrite H; assumption.
Qed.

(** ** City normalisation *)

(** C2. [normalizeCity] sends [null], [undefined] and the empty string to
    [null]; a string whose trimmed form lowercases to 'istanbul', or is
    'İstanbul' itself, to 'İstanbul'; and every other string to its trimmed
    form. *)
Theorem normalizeCity_canonical (toLowerCase : jsstring -> jsstring) :
  App.normalizeCity toLowerCase Undefined = None
  /\ App.normalizeCity toLowerCase Null = None
  /\ App.normalizeCity toLowerCase (Str []) = None
  /\ forall s : jsstring, s <> [] ->
       ((toLowerCase (trim s) = istanbul \/ trim s = Istanbul) ->
          App.normalizeCity toLowerCase (Str s) = Some Istanbul)
       /\ (~ (toLowerCase (trim s) = istanbul \/ trim s = Istanbul) ->
          App.normalizeCity toLowerCase (Str s) = Some (trim s)).
Proof.
  repeat split; try reflexivity.
  - intros Hcase.
    destruct s as [|c r]; [congruence|].
    unfold App.normalizeCity; cbn [truthy negb fieldToString].
    destruct Hcase as [E | E].
    + apply jsstring_eqb_eq in E; rewrite E; reflexivity.
    + apply jsstring_eqb_eq in E; rewrite E, orb_true_r; reflexivity.
  - intros Hother.
    destruct s as [|c r]; [congruence|].
    unfold App.normalizeCity; cbn [truthy negb fieldToString].
    destruct (jsstring_eqb (toLowerCase (trim (c :: r))) istanbul) eqn:E1.
    + exfalso; apply Hother; left; apply jsstring_eqb_eq; exact E1.
    + destruct (jsstring_eqb (trim (c :: r)) Istanbul) eqn:E2.
      * exfalso; apply Hother; right; apply jsstring_eqb_eq; exact E2.
      * reflexivity.
Qed.

Lemma normalizeCity_canonical_witness :
  App.normalizeCity toLowerCaseBasic (Str (lit " ISTANBUL ")) = Some Istanbul
  /\ App.normalizeCity toLowerCaseBasic (Str (lit " Ankara")) = Some (lit "Ankara").
Proof.
  destruct (normalizeCity_canonical toLowerCaseBasic) as (_ & _ & _ & H).
  split.
  - apply (H (lit " ISTANBUL ")).
    + discriminate.
    + left; reflexivity.
  - apply (H (lit " Ankara")).
    + discriminate.
    + intros [E | E]; vm_compute in E; discriminate E.
Defined.

(** ** Field derivation *)

(** C3. On a record whose [references_count] and [certified_experts_count]
    are the text 'N/A', the loader stores [NaN] as [references] and as
    [experts], not 0; the same text as [district] does give 0. *)
Theorem enhance_unparsable_count_is_NaN (toLowerCase : jsstring -> jsstring) :
  let p := App.enhance toLowerCase Catalogue.unparsable in
  App.references_count (App.raw p) = Str (lit "N/A")
  /\ App.references p = NaN
  /\ App.experts p = NaN
  /\ App.districtValue p = Num 0.
Proof. repeat split. Qed.

Lemma isDigit_cases (c : N) :
  isDigit c = true ->
  (c = 48 \/ c = 49 \/ c = 50 \/ c = 51 \/ c = 52 \/ c = 53 \/ c = 54
   \/ c = 55 \/ c = 56 \/ c = 57)%N.
Proof.
  unfold isDigit; rewrite andb_true_iff, !N.leb_le; lia.
Qed.

Lemma parseDigits_some (radix : Z) (s : jsstring) (a : Z) :
  exists v, parseDigits radix (Some a) s = Some v.
Proof.
  revert a; induction s as [|c s IH]; intros a; simpl.
  - exists a; reflexivity.
  - destruct (digitValue radix c) as [d|]; [apply IH | exists a; reflexivity].
Qed.

Lemma parseDigits_head (radix : Z) (c : N) (s : jsstring) (d : Z) :
  digitValue radix c = Some d ->
  parseDigits radix None (c :: s) = parseDigits radix (Some d) s.
Proof. simpl; intros ->; reflexivity. Qed.

Ltac parse_decimal_tail r :=
  match goal with
  | |- context [parseDigits 10 None (?c :: r)] =>
      rewrite (parseDigits_head 10 c r (Z.of_N c - 48) eq_refl);
      destruct (parseDigits_some 10 r (Z.of_N c - 48)) as (?v & ->);
      eexists; reflexivity
  end.

(** A text that starts with a decimal digit and holds only decimal digits
    parses to a number. *)
Lemma parseInt_digits (c : N) (r : jsstring) :
  isDigit c = true -> Forall (fun d => isDigit d = true) r ->
  exists z, parseInt (c :: r) = Num z.
Proof.
  intros Hc Hr.
  apply isDigit_cases in Hc.
  unfold parseInt.
  repeat (destruct Hc as [-> | Hc]); try subst c;
    cbn [dropWhile isWhiteSpace existsb N.eqb N.leb N.compare Pos.eqb
         Pos.compare Pos.compare_cont orb andb];
    try parse_decimal_tail r.
  destruct Hr as [|d r' Hd Hr']; [eexists; reflexivity|].
  apply isDigit_cases in Hd.
  repeat (destruct Hd as [-> | Hd]); try subst d;
    match goal with
    | |- context [parseDigits 10 None (48%N :: ?d :: r')] =>
        rewrite (parseDigits_head 10 48%N (d :: r') 0 eq_refl);
        destruct (parseDigits_some 10 (d :: r') 0) as (v & ->);
        eexists; reflexivity
    end.
Qed.

Lemma takeWhile_Forall {A} (f : A -> bool) (xs : list A) :
  Forall (fun a => f a = true) (takeWhile f xs).
Proof.
  induction xs as [|a xs IH]; simpl; [constructor|].
  destruct (f a) eqn:E; constructor; assumption.
Qed.

Lemma matchDigits_run (s m : jsstring) :
  matchDigits s = Some m ->
  exists c r, m = c :: r /\ isDigit c = true
              /\ Forall (fun d => isDigit d = true) r.
Proof.
  induction s as [|c s IH]; simpl; [discriminate|].
  destruct (isDigit c) eqn:E; [|exact IH].
  intros H; injection H as <-.
  exists c, (takeWhile isDigit s); repeat split;
    [exact E | apply takeWhile_Forall].
Qed.

(** [average_users] and [large_users] are never [NaN]. *)
Lemma first_digits_parse (f : field) :
  exists z, parseInt (firstDigitsOrZero f) = Num z.
Proof.
  destruct f as [| |s]; try (exists 0; reflexivity).
  unfold firstDigitsOrZero.
  destruct (matchDigits s) as [m|] eqn:E; [|exists 0; reflexivity].
  destruct (matchDigits_run s m E) as (c & r & -> & Hc & Hr).
  apply parseInt_digits; assumption.
Qed.

(** The derived fields on absent input: every count defaults to 0 and the
    display city to [null]. *)
Lemma enhance_absent_fields (toLowerCase : jsstring -> jsstring)
    (p : App.RawPartner) :
  (truthy (App.references_count p) = false ->
     App.references (App.enhance toLowerCase p) = Num 0)
  /\ (truthy (App.certified_experts_count p) = false ->
     App.experts (App.enhance toLowerCase p) = Num 0)
  /\ (truthy (App.average_project_size p) = false ->
     App.average_users (App.enhance toLowerCase p) = Num 0)
  /\ (truthy (App.large_project_size p) = false ->
     App.large_users (App.enhance toLowerCase p) = Num 0)
  /\ (truthy (App.district p) = false ->
     App.districtValue (App.enhance toLowerCase p) = Num 0).
Proof.
  unfold App.enhance; cbn [App.references App.experts App.average_users
    App.large_users App.districtValue].
  repeat split; intros H.
  - unfold or_zero_string; rewrite H; reflexivity.
  - unfold or_zero_string; rewrite H; reflexivity.
  - destruct (App.average_project_size p) as [| |[|c r]];
      try reflexivity; discriminate H.
  - destruct (App.large_project_size p) as [| |[|c r]];
      try reflexivity; discriminate H.
  - destruct (App.district p) as [| |[|c r]];
      try reflexivity; discriminate H.
Qed.

(** [districtValue] is never [NaN]. *)
Lemma districtValue_is_number (toLowerCase : jsstring -> jsstring)
    (p : App.RawPartner) :
  exists z, App.districtValue (App.enhance toLowerCase p) = Num z.
Proof.
  cbn [App.enhance App.districtValue].
  destruct (parseInt (fieldToString (App.district p))) as [|z]; simpl; eauto.
Qed.

(** The display city comes from [country] when [city] is 'Türkiye'. *)
Lemma enhance_displayCity (toLowerCase : jsstring -> jsstring)
    (p : App.RawPartner) :
  (App.city p = Str Turkiye ->
     App.displayCity (App.enhance toLowerCase p)
     = App.normalizeCity toLowerCase (App.country p))
  /\ (App.city p <> Str Turkiye ->
     App.displayCity (App.enhance toLowerCase p)
     = App.normalizeCity toLowerCase (App.city p)).
Proof.
  cbn [App.enhance App.displayCity]; split; intros H.
  - rewrite H; cbn [field_is]; rewrite jsstring_eqb_refl; reflexivity.
  - destruct (field_is (App.city p) Turkiye) eqn:E; [|reflexivity].
    destruct (App.city p) as [| |s]; try discriminate E.
    apply jsstring_eqb_eq in E; subst; congruence.
Qed.

(** ** The filter pipeline *)

Section Pipeline.

Variable toLowerCase : jsstring -> jsstring.

Lemma passesCriteria_iff (q : jsstring) (f : App.Filters) (p : App.Partner) :
  Spec.passesCriteria toLowerCase q f p = true
  <-> Spec.Criteria toLowerCase q f p.
Proof.
  unfold Spec.passesCriteria, Spec.Criteria.
  rewrite !andb_true_iff.
  assert (Hsearch :
    negb (App.nonEmpty q)
    || App.matchesSearch toLowerCase (toLowerCase q) p = true
    <-> (q <> [] ->
         includes (toLowerCase (App.name (App.raw p))) (toLowerCase q) = true
         \/ exists c, App.displayCity p = Some c
                     /\ includes (toLowerCase c) (toLowerCase q) = true)).
  { unfold App.matchesSearch.
    destruct q as [|c0 q0]; simpl.
    - split; [intros _ H; congruence | reflexivity].
    - rewrite orb_true_iff.
      split.
      + intros [H | H] _; [left; assumption|].
        destruct (App.displayCity p) as [c|]; [|discriminate].
        right; exists c; auto.
      + intros H; destruct (H ltac:(discriminate)) as [H1 | (c & Ec & H1)];
          [left; assumption|].
        right; rewrite Ec; assumption. }
  assert (Hlevel :
    match App.levels f with
    | [] => true
    | _ :: _ => App.arrayIncludesField (App.levels f) (App.level (App.raw p))
    end = true
    <-> (App.levels f <> [] ->
         exists lv, App.level (App.raw p) = Str lv /\ In lv (App.levels f))).
  { destruct (App.levels f) as [|l0 ls] eqn:El.
    - split; [intros _ H; congruence | reflexivity].
    - split.
      + intros H _.
        destruct (App.level (App.raw p)) as [| |lv]; try discriminate H.
        exists lv; split; [reflexivity | apply arrayIncludes_In; exact H].
      + intros H; destruct (H ltac:(discriminate)) as (lv & E & Hin).
        rewrite E; apply arrayIncludes_In; exact Hin. }
  assert (Hrange :
    App.inReferenceRange f p = true
    <-> exists lo r hi,
          App.minReferences f = Num lo /\ App.references p = Num r
          /\ App.maxReferences f = Num hi /\ lo <= r <= hi).
  { unfold App.inReferenceRange.
    rewrite andb_true_iff, !num_leb_le.
    split.
    - intros [(lo & r & E1 & E2 & H1) (r' & hi & E3 & E4 & H2)].
      rewrite E2 in E3; injection E3 as <-.
      exists lo, r, hi; auto.
    - intros (lo & r & hi & E1 & E2 & E3 & H1 & H2).
      split; [exists lo, r | exists r, hi]; auto. }
  assert (Hcity :
    App.arrayIncludesOpt (App.selectedCities f) (App.displayCity p) = true
    <-> exists c, App.displayCity p = Some c /\ In c (App.selectedCities f)).
  { destruct (App.displayCity p) as [c|]; simpl.
    - rewrite arrayIncludes_In.
      split; [intros H; exists c; auto|].
      intros (c' & E & H); injection E as ->; assumption.
    - split; [discriminate | intros (c & E & _); discriminate]. }
  rewrite Hsearch, Hlevel, Hrange, Hcity.
  tauto.
Qed.

(** The four stages of the effect are one filter by [passesCriteria]. *)
Lemma applyFilters_filter (ps : list App.Partner) (q : jsstring)
    (f : App.Filters) :
  App.applyFilters toLowerCase ps q f
  = filter (Spec.passesCriteria toLowerCase q f) ps.
Proof.
  unfold App.applyFilters, Spec.passesCriteria.
  destruct q as [|c0 q0], (App.levels f) as [|l0 ls]; simpl;
    rewrite ?filter_filter_andb; apply filter_ext; intros p;
    rewrite ?andb_assoc, ?andb_true_r; reflexivity.
Qed.

Lemma applyFilters_nil (q : jsstring) (f : App.Filters) :
  App.applyFilters toLowerCase [] q f = [].
Proof. rewrite applyFilters_filter; reflexivity. Qed.

Lemma handle_keeps_filtered (e : App.Event) (s : App.AppState) :
  (forall data, e <> App.Loaded data) ->
  App.filteredPartners (App.handle toLowerCase e s) = App.filteredPartners s.
Proof.
  intros H; destruct e as [data| |q|[|] v|lv|c|m]; try reflexivity.
  exfalso; apply (H data); reflexivity.
Qed.

Lemma handle_keeps_empty (e : App.Event) (s : App.AppState) :
  (App.loading s = true -> App.partners s = []) ->
  App.loading (App.handle toLowerCase e s) = true ->
  App.partners (App.handle toLowerCase e s) = [].
Proof.
  intros H; destruct e as [data| |q|[|] v|lv|c|m]; simpl;
    try discriminate; exact H.
Qed.

Lemma reachable_settled (s : App.AppState) :
  App.reachable toLowerCase s -> Spec.settled toLowerCase s.
Proof.
  induction 1 as [|s s' Hs IH Hstep].
  - split; reflexivity.
  - destruct IH as [IHf IHl].
    destruct Hstep as [e s He | e s He Hdeps].
    + split.
      * reflexivity.
      * intros Hl; apply (handle_keeps_empty e s IHl Hl).
    + split.
      * unfold App.deps in Hdeps.
        injection Hdeps as Ep Eq Ef.
        rewrite Ep, Eq, Ef.
        destruct e as [data| |q|[|] v|lv|c|m];
          try (rewrite handle_keeps_filtered by discriminate; exact IHf).
        simpl in He, Ep |- *.
        rewrite Ep, (IHl He), applyFilters_nil; reflexivity.
      * intros Hl; apply (handle_keeps_empty e s IHl Hl).
Qed.

End Pipeline.

(** C1 (as amended). The visible subset is the partner list filtered by
    the conjunction of the criteria: a non-empty search text occurs in the
    lowercased name or the lowercased display city; when some tier is
    selected the partner's tier is a selected one; the reference count lies
    within the inclusive bounds; the display city is selected.  Every state
    the application settles in, after any change of the data, the search text
    or the filter state, shows exactly that subset. *)
Theorem filter_pipeline_criteria (toLowerCase : jsstring -> jsstring) :
  (forall q f p,
     Spec.passesCriteria toLowerCase q f p = true
     <-> Spec.Criteria toLowerCase q f p)
  /\ (forall ps q f,
        App.applyFilters toLowerCase ps q f
        = filter (Spec.passesCriteria toLowerCase q f) ps)
  /\ (forall s,
        App.reachable toLowerCase s ->
        App.filteredPartners s
        = filter
            (Spec.passesCriteria toLowerCase (App.searchQuery s) (App.filters s))
            (App.partners s)).
Proof.
  split; [|split].
  - apply passesCriteria_iff.
  - apply applyFilters_filter.
  - intros s Hs.
    destruct (reachable_settled toLowerCase s Hs) as [E _].
    rewrite E; apply applyFilters_filter.
Qed.

Lemma filter_pipeline_criteria_witness :
  App.reachable toLowerCaseBasic Catalogue.searched
  /\ App.filteredPartners Catalogue.searched
     = filter
         (Spec.passesCriteria toLowerCaseBasic
            (App.searchQuery Catalogue.searched)
            (App.filters Catalogue.searched))
         (App.partners Catalogue.searched).
Proof.
  assert (R : App.reachable toLowerCaseBasic Catalogue.searched).
  { pose (s0 := App.runFilterEffect toLowerCaseBasic App.initialState).
    pose (s1 := App.runFilterEffect toLowerCaseBasic
                  (App.handle toLowerCaseBasic (App.Loaded Catalogue.data) s0)).
    apply App.reach_step with (s := s1).
    - apply App.reach_step with (s := s0).
      + apply App.reach_mount.
      + apply (App.step_run _ (App.Loaded Catalogue.data) s0); reflexivity.
    - apply (App.step_run _ (App.SetSearchQuery (lit "acme")) s1); reflexivity. }
  split.
  - exact R.
  - apply (proj2 (proj2 (filter_pipeline_criteria toLowerCaseBasic))); exact R.
Defined.

(** With the tier selection reduced to Gold and the search text 'acme',
    'Acme' (Gold, Ankara) is shown although neither its name nor its city
    contains 'acme' as written, and 'acme2' (Silver, Izmir) is hidden although
    it meets the search, reference and city criteria. *)
Lemma filter_pipeline_listed_criteria_fail :
  let lower := toLowerCaseBasic in
  let visible :=
    App.applyFilters lower Catalogue.enhanced (lit "acme") Catalogue.goldOnly in
  let a := App.enhance lower Catalogue.acme in
  let b := App.enhance lower Catalogue.acme2 in
  (In a visible
   /\ ~ Spec.ListedCriteria lower (lit "acme") Catalogue.goldOnly a)
  /\ (In b Catalogue.enhanced
      /\ Spec.ListedCriteria lower (lit "acme") Catalogue.goldOnly b
      /\ ~ In b visible).
Proof.
  cbv zeta; split; [split|split; [|split]].
  - vm_compute; left; reflexivity.
  - intros (Hs & _).
    destruct (Hs ltac:(discriminate)) as [H | (c & Ec & H)].
    + vm_compute in H; discriminate H.
    + vm_compute in Ec; injection Ec as <-.
      vm_compute in H; discriminate H.
  - vm_compute; right; left; reflexivity.
  - split; [|split].
    + intros _; left; vm_compute; reflexivity.
    + exists 0, 0, 100; vm_compute; repeat split; discriminate.
    + exists (lit "Izmir"); split; [reflexivity|].
      right; left; reflexivity.
  - vm_compute; intros [H | []]; discriminate H.
Qed.

(** C8. Two runs of the filter effect on states that agree on the partner
    list, the search text and the filter state produce the same visible
    subset, whatever else the states hold. *)
Theorem runFilterEffect_deterministic (toLowerCase : jsstring -> jsstring)
    (s1 s2 : App.AppState) :
  App.partners s1 = App.partners s2 ->
  App.searchQuery s1 = App.searchQuery s2 ->
  App.filters s1 = App.filters s2 ->
  App.filteredPartners (App.runFilterEffect toLowerCase s1)
  = App.filteredPartners (App.runFilterEffect toLowerCase s2).
Proof.
  intros Ep Eq Ef.
  unfold App.runFilterEffect; cbn [App.setFilteredPartners App.filteredPartners].
  rewrite Ep, Eq, Ef; reflexivity.
Qed.

Lemma runFilterEffect_deterministic_witness :
  let s1 := Catalogue.searched in
  let s2 :=
    App.setFilteredPartners []
      (App.handle toLowerCaseBasic (App.SetAreaMetric (lit "district")) s1) in
  s1 <> s2
  /\ App.filteredPartners (App.runFilterEffect toLowerCaseBasic s1)
     = App.filteredPartners (App.runFilterEffect toLowerCaseBasic s2).
Proof.
  cbv zeta; split.
  - intros E; apply (f_equal App.areaMetric) in E; vm_compute in E;
      discriminate E.
  - apply runFilterEffect_deterministic; reflexivity.
Defined.

(** C9. With no city selected the visible subset is empty, for every
    partner list, search text and choice of the other filters. *)
Theorem no_city_selected_shows_nothing (toLowerCase : jsstring -> jsstring)
    (ps : list App.Partner) (q : jsstring) (f : App.Filters) :
  App.selectedCities f = [] ->
  App.applyFilters toLowerCase ps q f = [].
Proof.
  intros H.
  rewrite applyFilters_filter.
  apply filter_none; intros p.
  unfold Spec.passesCriteria; rewrite H.
  destruct (App.displayCity p); simpl; apply andb_false_r.
Qed.

Lemma no_city_selected_shows_nothing_witness :
  In (App.enhance toLowerCaseBasic Catalogue.nomad) Catalogue.enhanced
  /\ App.displayCity (App.enhance toLowerCaseBasic Catalogue.nomad) = None
  /\ App.applyFilters toLowerCaseBasic Catalogue.enhanced [] Catalogue.noCities
     = [].
Proof.
  split; [|split].
  - right; right; left; reflexivity.
  - reflexivity.
  - apply no_city_selected_shows_nothing; reflexivity.
Defined.

(** C10 (as amended). With no tier selected the tier criterion is
    skipped: the visible subset is what the search, reference and city
    criteria leave, whatever the partners' tiers.  It holds the partners
    shown with all three tiers selected and, besides them, those whose tier
    is none of the three; so it is the subset shown with all three selected
    when every partner's tier is one of the three the sidebar offers. *)
Theorem no_level_selected_skips_tier (toLowerCase : jsstring -> jsstring)
    (ps : list App.Partner) (q : jsstring) (f : App.Filters) :
  App.levels f = [] ->
  App.applyFilters toLowerCase ps q f
  = filter
      (fun p =>
         (negb (App.nonEmpty q)
          || App.matchesSearch toLowerCase (toLowerCase q) p)
         && App.inReferenceRange f p
         && App.arrayIncludesOpt (App.selectedCities f) (App.displayCity p))
      ps
  /\ (Forall
        (fun p =>
           exists lv, App.level (App.raw p) = Str lv
                      /\ In lv Sidebar.levelOptions) ps ->
      App.applyFilters toLowerCase ps q f
      = App.applyFilters toLowerCase ps q
          (Spec.withLevels Sidebar.levelOptions f))
  /\ (forall p,
        In p (App.applyFilters toLowerCase ps q
                (Spec.withLevels Sidebar.levelOptions f))
        <-> In p (App.applyFilters toLowerCase ps q f)
            /\ Spec.tierOffered p).
Proof.
  intros H; split; [|split].
  - rewrite applyFilters_filter.
    apply filter_ext; intros p.
    unfold Spec.passesCriteria; rewrite H, andb_true_r; reflexivity.
  - intros Hall.
    rewrite !applyFilters_filter.
    apply filter_ext_in; intros p Hp.
    rewrite Forall_forall in Hall.
    destruct (Hall p Hp) as (lv & E & Hin).
    unfold Spec.passesCriteria, Spec.withLevels; simpl; rewrite H, E.
    apply arrayIncludes_In in Hin.
    cbn [App.arrayIncludesField]; rewrite Hin; reflexivity.
  - intros p.
    rewrite !applyFilters_filter, !filter_In, !passesCriteria_iff.
    unfold Spec.Criteria, Spec.tierOffered, Spec.withLevels;
      cbn [App.levels App.minReferences App.maxReferences App.selectedCities].
    rewrite H.
    split.
    + intros (Hp & H1 & H2 & H3 & H4).
      split; [|apply H2; discriminate].
      split; [exact Hp | split; [exact H1 | split; [|split; assumption]]].
      intros Hne; congruence.
    + intros ((Hp & H1 & _ & H3 & H4) & Ht).
      split; [exact Hp | split; [exact H1 | split; [|split; assumption]]].
      intros _; exact Ht.
Qed.

Lemma no_level_selected_skips_tier_witness :
  App.applyFilters toLowerCaseBasic Catalogue.enhanced [] Catalogue.noLevels
  = [App.enhance toLowerCaseBasic Catalogue.acme;
     App.enhance toLowerCaseBasic Catalogue.acme2]
  /\ App.applyFilters toLowerCaseBasic Catalogue.enhanced [] Catalogue.noLevels
     = App.applyFilters toLowerCaseBasic Catalogue.enhanced []
         (Spec.withLevels Sidebar.levelOptions Catalogue.noLevels).
Proof.
  destruct (no_level_selected_skips_tier toLowerCaseBasic Catalogue.enhanced []
              Catalogue.noLevels eq_refl) as (H1 & H2 & _).
  split.
  - rewrite H1; reflexivity.
  - apply H2.
    repeat constructor.
    + exists (lit "Gold"); split; [reflexivity | left; reflexivity].
    + exists (lit "Silver"); split; [reflexivity | right; left; reflexivity].
    + exists (lit "Ready"); split;
        [reflexivity | right; right; left; reflexivity].
Defined.

(** A Platinum partner of Ankara with 5 references is shown when no tier is
    ticked and hidden when Gold, Silver and Ready all are: the two selections
    do not show the same partners. *)
Lemma no_level_selected_differs_from_all_selected :
  let ps := [App.enhance toLowerCaseBasic Catalogue.platinum] in
  App.levels Catalogue.noLevels = []
  /\ App.applyFilters toLowerCaseBasic ps [] Catalogue.noLevels = ps
  /\ App.applyFilters toLowerCaseBasic ps []
       (Spec.withLevels Sidebar.levelOptions Catalogue.noLevels) = []
  /\ App.applyFilters toLowerCaseBasic ps [] Catalogue.noLevels
     <> App.applyFilters toLowerCaseBasic ps []
          (Spec.withLevels Sidebar.levelOptions Catalogue.noLevels).
Proof.
  cbv zeta; repeat split; try reflexivity.
  vm_compute; discriminate.
Qed.

(** ** Filter domains *)

Lemma opt_eqb_eq (a b : option jsstring) : App.opt_eqb a b = true <-> a = b.
Proof.
  destruct a as [x|], b as [y|]; simpl;
    try (split; [discriminate | intros H; discriminate H]);
    try (split; reflexivity).
  rewrite jsstring_eqb_eq; split; [intros -> | intros H; injection H as ->];
    reflexivity.
Qed.

Lemma seen_In (x : option jsstring) (seen : list (option jsstring)) :
  existsb (App.opt_eqb x) seen = true <-> In x seen.
Proof.
  rewrite existsb_exists; split.
  - intros (y & Hy & E); apply opt_eqb_eq in E; subst; assumption.
  - intros H; exists x; split; [assumption | apply opt_eqb_eq; reflexivity].
Qed.

Lemma setOf_In (xs seen : list (option jsstring)) (x : option jsstring) :
  In x (App.setOf seen xs) <-> In x xs /\ ~ In x seen.
Proof.
  revert seen; induction xs as [|y xs IH]; intros seen; simpl.
  - tauto.
  - destruct (existsb (App.opt_eqb y) seen) eqn:E.
    + apply seen_In in E.
      rewrite IH; split.
      * intros [H1 H2]; auto.
      * intros [[-> | H1] H2]; [contradiction | auto].
    + assert (Hy : ~ In y seen).
      { intros H; apply seen_In in H; congruence. }
      simpl; rewrite IH; simpl.
      split.
      * intros [-> | [H1 H2]]; [auto|].
        split; [right; assumption | intros H; apply H2; right; assumption].
      * intros [[-> | H1] H2]; [left; reflexivity|].
        destruct (App.opt_eqb y x) eqn:Eyx.
        -- apply opt_eqb_eq in Eyx; left; assumption.
        -- right; split; [assumption|].
           intros [Hx | Hx]; [|contradiction].
           subst; rewrite (proj2 (opt_eqb_eq x x) eq_refl) in Eyx;
             discriminate Eyx.
Qed.

Lemma setOf_NoDup (xs seen : list (option jsstring)) :
  NoDup (App.setOf seen xs).
Proof.
  revert seen; induction xs as [|y xs IH]; intros seen; simpl.
  - constructor.
  - destruct (existsb (App.opt_eqb y) seen); [apply IH|].
    constructor; [|apply IH].
    rewrite setOf_In; intros [_ H]; apply H; left; reflexivity.
Qed.

Lemma filterBoolean_In (xs : list (option jsstring)) (c : jsstring) :
  In c (App.filterBoolean xs) <-> c <> [] /\ In (Some c) xs.
Proof.
  induction xs as [|[[|c0 r]|] xs IH]; simpl.
  - tauto.
  - rewrite IH; split.
    + intros [H1 H2]; auto.
    + intros [H1 [H2 | H2]]; [injection H2 as <-; congruence | auto].
  - rewrite IH; split.
    + intros [<- | [H1 H2]]; [split; [discriminate | left; reflexivity] | auto].
    + intros [H1 [H2 | H2]]; [injection H2 as <-; left; reflexivity | auto].
  - rewrite IH; split.
    + intros [H1 H2]; auto.
    + intros [H1 [H2 | H2]]; [discriminate H2 | auto].
Qed.

Lemma filterBoolean_NoDup (xs : list (option jsstring)) :
  NoDup xs -> NoDup (App.filterBoolean xs).
Proof.
  induction 1 as [|x xs Hx Hnd IH]; simpl; [constructor|].
  destruct x as [[|c0 r]|]; try exact IH.
  constructor; [|exact IH].
  rewrite filterBoolean_In; intros [_ H]; contradiction.
Qed.

Lemma jsstring_ltb_asym (a b : jsstring) :
  jsstring_ltb a b = true -> jsstring_ltb b a = false.
Proof.
  revert b; induction a as [|x a IH]; intros [|y b]; simpl; try congruence.
  intros H.
  apply orb_true_iff in H; destruct H as [H | H].
  - apply N.ltb_lt in H.
    assert (E1 : N.ltb y x = false) by (apply N.ltb_ge; lia).
    assert (E2 : N.eqb y x = false) by (apply N.eqb_neq; lia).
    rewrite E1, E2; reflexivity.
  - apply andb_true_iff in H; destruct H as [H1 H2].
    apply N.eqb_eq in H1; subst y.
    rewrite N.ltb_irrefl, N.eqb_refl, (IH _ H2); reflexivity.
Qed.

Lemma insertSorted_perm (x : jsstring) (l : list jsstring) :
  Permutation (App.insertSorted x l) (x :: l).
Proof.
  induction l as [|y l IH]; simpl; [reflexivity|].
  destruct (jsstring_leb x y); [reflexivity|].
  rewrite IH; apply perm_swap.
Qed.

Lemma sortStrings_perm (l : list jsstring) :
  Permutation (App.sortStrings l) l.
Proof.
  induction l as [|x l IH]; simpl; [reflexivity|].
  rewrite insertSorted_perm; constructor; exact IH.
Qed.

Lemma insertSorted_sorted (x : jsstring) (l : list jsstring) :
  Sorted codeUnitOrder l -> Sorted codeUnitOrder (App.insertSorted x l).
Proof.
  induction 1 as [|y l Hs IH Hhd]; simpl.
  - repeat constructor.
  - destruct (jsstring_leb x y) eqn:E.
    + constructor; [constructor; assumption | constructor; exact E].
    + assert (Hyx : codeUnitOrder y x).
      { unfold codeUnitOrder, jsstring_leb in *.
        apply negb_false_iff in E.
        rewrite (jsstring_ltb_asym _ _ E); reflexivity. }
      constructor; [exact IH|].
      destruct l as [|z l]; simpl.
      * constructor; exact Hyx.
      * destruct (jsstring_leb x z); constructor;
          [exact Hyx | inversion Hhd; assumption].
Qed.

Lemma sortStrings_sorted (l : list jsstring) :
  Sorted codeUnitOrder (App.sortStrings l).
Proof.
  induction l as [|x l IH]; simpl; [constructor|].
  apply insertSorted_sorted; exact IH.
Qed.

Lemma uniqueCities_spec (ps : list App.Partner) :
  Sorted codeUnitOrder (App.uniqueCities ps)
  /\ NoDup (App.uniqueCities ps)
  /\ forall c, In c (App.uniqueCities ps)
       <-> c <> [] /\ exists p, In p ps /\ App.displayCity p = Some c.
Proof.
  unfold App.uniqueCities; split; [|split].
  - apply sortStrings_sorted.
  - eapply Permutation_NoDup.
    + symmetry; apply sortStrings_perm.
    + apply filterBoolean_NoDup, setOf_NoDup.
  - intros c.
    assert (P := sortStrings_perm
                   (App.filterBoolean (App.setOf [] (map App.displayCity ps)))).
    split.
    + intros H.
      apply (Permutation_in _ P) in H.
      apply filterBoolean_In in H; destruct H as [Hne H].
      apply setOf_In in H; destruct H as [H _].
      apply in_map_iff in H; destruct H as (p & E & Hp).
      split; [exact Hne | exists p; auto].
    + intros (Hne & p & Hp & E).
      apply (Permutation_in _ (Permutation_sym P)).
      apply filterBoolean_In; split; [exact Hne|].
      apply setOf_In; split; [|intros []].
      rewrite <- E; apply in_map; exact Hp.
Qed.

Lemma math_max_numbers (xs : list jsnum) (d : Z) :
  Forall (fun x => x <> NaN) xs ->
  exists m, math_max xs d = Num m /\ d <= m
    /\ (forall r, In (Num r) xs -> r <= m)
    /\ (m = d \/ In (Num m) xs).
Proof.
  induction 1 as [|x xs Hx Hall IH].
  - exists d; repeat split; [lia | intros r [] | left; reflexivity].
  - destruct IH as (m & E & Hd & Hub & Hw).
    destruct x as [|z]; [congruence|].
    change (math_max (Num z :: xs) d) with (num_max (Num z) (math_max xs d)).
    rewrite E; simpl.
    exists (Z.max z m); repeat split.
    + lia.
    + intros r [H | H]; [injection H as ->; lia | specialize (Hub r H); lia].
    + destruct (Z.max_spec z m) as [[_ ->] | [_ ->]].
      * destruct Hw as [-> | Hw]; [left; reflexivity | right; right; exact Hw].
      * right; left; reflexivity.
Qed.

Lemma math_max_NaN (xs : list jsnum) (d : Z) :
  In NaN xs -> math_max xs d = NaN.
Proof.
  induction xs as [|x xs IH]; [intros []|].
  change (math_max (x :: xs) d) with (num_max x (math_max xs d)).
  intros [-> | H]; [reflexivity|].
  rewrite (IH H); destruct x; reflexivity.
Qed.

(** While the fetch is pending the application is in its mount state. *)
Lemma reachable_loading (toLowerCase : jsstring -> jsstring)
    (s : App.AppState) :
  App.reachable toLowerCase s -> App.loading s = true ->
  s = App.runFilterEffect toLowerCase App.initialState.
Proof.
  induction 1 as [|s s' Hs IH Hstep]; [reflexivity|].
  intros Hl; exfalso.
  destruct Hstep as [e s He | e s He _];
    destruct e as [data| |q|[|] v|lv|c|m]; simpl in He, Hl;
    try discriminate Hl;
    rewrite Hl in He; discriminate He.
Qed.

(** C4 (as amended). When the dataset arrives, [selectedCities] becomes the
    list, sorted in code-unit order and without repetition, of the display
    cities of the partners that are neither [null] nor empty; provided every
    [references] value is a number, [maxReferences] becomes the largest of
    them and of 100; and the selected tiers stay the three the sidebar
    offers, Gold, Silver and Ready. *)
Theorem filter_domains_on_load (toLowerCase : jsstring -> jsstring)
    (s0 : App.AppState) (data : list App.RawPartner) :
  App.reachable toLowerCase s0 ->
  App.loading s0 = true ->
  let s := App.handle toLowerCase (App.Loaded data) s0 in
  let ps := App.partners s in
  let f := App.filters s in
  ps = map (App.enhance toLowerCase) data
  /\ (Forall (fun p => App.references p <> NaN) ps ->
      exists m,
        App.maxReferences f = Num m /\ 100 <= m
        /\ (forall p r, In p ps -> App.references p = Num r -> r <= m)
        /\ (m = 100 \/ exists p, In p ps /\ App.references p = Num m))
  /\ (Sorted codeUnitOrder (App.selectedCities f)
      /\ NoDup (App.selectedCities f)
      /\ forall c,
           In c (App.selectedCities f)
           <-> c <> [] /\ exists p, In p ps /\ App.displayCity p = Some c)
  /\ App.levels f = Sidebar.levelOptions.
Proof.
  intros Hr Hl.
  rewrite (reachable_loading toLowerCase s0 Hr Hl).
  cbv zeta; cbn [App.handle App.partners App.filters App.maxReferences
    App.selectedCities App.levels App.runFilterEffect App.setFilteredPartners
    App.initialState App.initialFilters].
  split; [reflexivity|split; [|split; [|reflexivity]]].
  - intros Hall.
    set (ps := map (App.enhance toLowerCase) data) in *.
    destruct (math_max_numbers (map App.references ps) 100) as (m & E & Hd & Hub & Hw).
    { rewrite Forall_map; exact Hall. }
    exists m; repeat split.
    + exact E.
    + exact Hd.
    + intros p r Hp Er; apply Hub; rewrite <- Er; apply in_map; exact Hp.
    + destruct Hw as [-> | Hw]; [left; reflexivity|].
      right; apply in_map_iff in Hw; destruct Hw as (p & Ep & Hp).
      exists p; auto.
  - apply uniqueCities_spec.
Qed.

Lemma filter_domains_on_load_witness :
  let s0 := App.runFilterEffect toLowerCaseBasic App.initialState in
  let f :=
    App.filters (App.handle toLowerCaseBasic (App.Loaded Catalogue.data) s0) in
  (exists m, App.maxReferences f = Num m /\ 100 <= m)
  /\ App.selectedCities f = [lit "Ankara"; lit "Izmir"]
  /\ App.levels f = Sidebar.levelOptions.
Proof.
  cbv zeta.
  pose proof (filter_domains_on_load toLowerCaseBasic
                (App.runFilterEffect toLowerCaseBasic App.initialState)
                Catalogue.data (App.reach_mount toLowerCaseBasic) eq_refl) as H.
  cbv zeta in H; destruct H as (_ & Hmax & _ & Hlv).
  split; [|split; [reflexivity | exact Hlv]].
  destruct Hmax as (m & E & Hm & _).
  - repeat constructor; discriminate.
  - exists m; split; assumption.
Defined.

(** Loading a dataset whose only record has a single space as its city
    leaves that partner's display city, the empty string, out of
    [selectedCities]: a display city that is not [null] and is not selected.
    And loading a dataset with a record whose [references_count] reads 'N/A'
    sets [maxReferences] to [NaN]. *)
Lemma filter_domains_blank_city_unselected :
  let lower := toLowerCaseBasic in
  let mount := App.runFilterEffect lower App.initialState in
  let s := App.handle lower (App.Loaded [Catalogue.blank]) mount in
  let s' := App.handle lower (App.Loaded [Catalogue.unparsable]) mount in
  (exists p c,
     In p (App.partners s)
     /\ App.displayCity p = Some c
     /\ ~ In c (App.selectedCities (App.filters s)))
  /\ App.maxReferences (App.filters s') = NaN.
Proof.
  cbv zeta; split; [|reflexivity].
  exists (App.enhance toLowerCaseBasic Catalogue.blank), [].
  split; [left; reflexivity | split; [reflexivity | intros []]].
Qed.

(** A [references] value that is [NaN] makes [maxReferences] [NaN]. *)
Lemma maxRefs_NaN (ps : list App.Partner) :
  (exists p, In p ps /\ App.references p = NaN) -> App.maxRefs ps = NaN.
Proof.
  intros (p & Hp & E).
  apply math_max_NaN; rewrite <- E; apply in_map; exact Hp.
Qed.

(** ** Chart data *)

Lemma insertBy_perm (cmp : TreeMapChart.ChartEntry -> TreeMapChart.ChartEntry -> Z)
    (e : TreeMapChart.ChartEntry) (es : list TreeMapChart.ChartEntry) :
  Permutation (TreeMapChart.insertBy cmp e es) (e :: es).
Proof.
  induction es as [|y es IH]; simpl; [reflexivity|].
  destruct (cmp e y <=? 0); [reflexivity|].
  rewrite IH; apply perm_swap.
Qed.

Lemma sortBy_perm (cmp : TreeMapChart.ChartEntry -> TreeMapChart.ChartEntry -> Z)
    (es : list TreeMapChart.ChartEntry) :
  Permutation (TreeMapChart.sortBy cmp es) es.
Proof.
  induction es as [|e es IH]; simpl; [reflexivity|].
  rewrite insertBy_perm; constructor; exact IH.
Qed.

Lemma mapIndexed_In {A B} (f : A -> nat -> B) (xs : list A) (i : nat) (b : B) :
  In b (TreeMapChart.mapIndexed f i xs)
  <-> exists a j, nth_error xs j = Some a /\ b = f a (i + j)%nat.
Proof.
  revert i; induction xs as [|a xs IH]; intros i; simpl.
  - split; [intros [] | intros (a & [|j] & H & _); discriminate H].
  - rewrite IH; split.
    + intros [<- | (a' & j & Hj & ->)].
      * exists a, 0%nat; rewrite Nat.add_0_r; auto.
      * exists a', (S j); rewrite Nat.add_succ_r; auto.
    + intros (a' & [|j] & Hj & ->); simpl in Hj.
      * injection Hj as ->; rewrite Nat.add_0_r; left; reflexivity.
      * right; exists a', j; rewrite Nat.add_succ_r; auto.
Qed.

Lemma bySizeDesc_sorted (es : list TreeMapChart.ChartEntry) :
  Sorted (fun a b => TreeMapChart.bySizeDesc a b <= 0)
    (TreeMapChart.sortBy TreeMapChart.bySizeDesc es).
Proof.
  induction es as [|e es IH]; simpl; [constructor|].
  revert IH; generalize (TreeMapChart.sortBy TreeMapChart.bySizeDesc es).
  intros l; induction 1 as [|y l Hs IH Hhd]; simpl.
  - repeat constructor.
  - destruct (TreeMapChart.bySizeDesc e y <=? 0) eqn:E.
    + apply Z.leb_le in E.
      constructor; [constructor; assumption | constructor; exact E].
    + apply Z.leb_gt in E.
      assert (Hye : TreeMapChart.bySizeDesc y e <= 0).
      { unfold TreeMapChart.bySizeDesc in *.
        destruct (TreeMapChart.size y), (TreeMapChart.size e); lia. }
      constructor; [exact IH|].
      destruct l as [|z l]; simpl.
      * constructor; exact Hye.
      * destruct (TreeMapChart.bySizeDesc e z <=? 0); constructor;
          [exact Hye | inversion Hhd; assumption].
Qed.

(** C5 (as amended). For a non-empty partner list the chart holds exactly
    one entry per partner, ordered by size, and the size of an entry is the
    larger of 1 and its metric: its references value under 'references', its
    [districtValue] under 'district'.  So sizes equal the metric, and keep
    its ratios, among partners whose metric is at least 1, while a partner
    whose metric is 0 gets size 1. *)
Theorem chartData_size_is_clamped_metric (ps : list App.Partner)
    (areaMetric : jsstring) (maxMetric : jsnum) :
  ps <> [] ->
  let entries := TreeMapChart.chartData ps areaMetric maxMetric in
  Permutation entries
    (TreeMapChart.mapIndexed (TreeMapChart.toEntry areaMetric maxMetric) 0 ps)
  /\ Sorted (fun a b => TreeMapChart.bySizeDesc a b <= 0) entries
  /\ forall e, In e entries ->
       (exists p i,
          nth_error ps i = Some p
          /\ e = TreeMapChart.toEntry areaMetric maxMetric p i)
       /\ (areaMetric = lit "references" ->
           forall v, TreeMapChart.references e = Num v ->
             TreeMapChart.size e = Num (Z.max v 1))
       /\ (areaMetric = lit "district" ->
           forall v, TreeMapChart.districtValue e = Num v ->
             TreeMapChart.size e = Num (Z.max v 1)).
Proof.
  intros Hne; cbv zeta.
  destruct ps as [|p0 ps0]; [congruence|].
  set (ps := p0 :: ps0).
  assert (P : Permutation (TreeMapChart.chartData ps areaMetric maxMetric)
                (TreeMapChart.mapIndexed
                   (TreeMapChart.toEntry areaMetric maxMetric) 0 ps)).
  { apply sortBy_perm. }
  split; [exact P | split; [apply bySizeDesc_sorted|]].
  intros e He.
  apply (Permutation_in _ P) in He.
  apply mapIndexed_In in He; destruct He as (p & i & Hi & ->).
  split; [exists p, i; auto|].
  split; intros -> v Hv; cbn in Hv |- *; rewrite Hv; reflexivity.
Qed.

Lemma chartData_size_is_clamped_metric_witness :
  let ps :=
    App.applyFilters toLowerCaseBasic Catalogue.enhanced [] Catalogue.noLevels in
  let entries :=
    TreeMapChart.chartData ps (lit "references")
      (TreeMapChart.computeMaxMetric ps) in
  map TreeMapChart.size entries = [Num 12; Num 1]
  /\ Permutation entries
       (TreeMapChart.mapIndexed
          (TreeMapChart.toEntry (lit "references")
             (TreeMapChart.computeMaxMetric ps)) 0 ps).
Proof.
  cbv zeta; split; [reflexivity|].
  apply (chartData_size_is_clamped_metric
           (App.applyFilters toLowerCaseBasic Catalogue.enhanced []
              Catalogue.noLevels)).
  vm_compute; discriminate.
Defined.

(** Under 'references', the chart of the two partners that pass the filters
    gives 'acme2', whose references value is 0, the size 1. *)
Lemma chartData_zero_metric_gets_size_one :
  let ps :=
    App.applyFilters toLowerCaseBasic Catalogue.enhanced [] Catalogue.noLevels in
  let entries :=
    TreeMapChart.chartData ps (lit "references")
      (TreeMapChart.computeMaxMetric ps) in
  ps <> []
  /\ exists e,
       In e entries
       /\ TreeMapChart.references e = Num 0
       /\ TreeMapChart.size e = Num 1
       /\ TreeMapChart.size e <> TreeMapChart.references e.
Proof.
  cbv zeta; split; [vm_compute; discriminate|].
  eexists; split; [right; left; reflexivity|].
  vm_compute; repeat split; discriminate.
Qed.

(** ** Box colours *)









(** ** Tooltip placement *)

(** C7. While the tooltip is on screen, a pointer move places it 16 pixels
    right of and below the cursor; on each axis on its own, when the cursor
    coordinate plus the tooltip's extent (220 wide, 180 high) plus 30 exceeds
    the viewport's, it is placed 16 pixels before the cursor minus that
    extent. *)
Theorem tooltip_follows_cursor (ps : list App.Partner)
    (tooltipData : option TreeMapChart.ChartEntry)
    (window : TreeMapChart.Window) (e : TreeMapChart.MouseEvent)
    (tooltipPos : TreeMapChart.Pos) :
  TreeMapChart.tooltipRendered ps tooltipData = true ->
  let cx := TreeMapChart.clientX e in
  let cy := TreeMapChart.clientY e in
  let pos :=
    TreeMapChart.handleMouseMove (TreeMapChart.containerMounted ps) window e
      tooltipPos in
  (cx + 220 + 30 > TreeMapChart.innerWidth window ->
     TreeMapChart.x pos = cx - 220 - 16)
  /\ (cx + 220 + 30 <= TreeMapChart.innerWidth window ->
      TreeMapChart.x pos = cx + 16)
  /\ (cy + 180 + 30 > TreeMapChart.innerHeight window ->
      TreeMapChart.y pos = cy - 180 - 16)
  /\ (cy + 180 + 30 <= TreeMapChart.innerHeight window ->
      TreeMapChart.y pos = cy + 16).
Proof.
  intros Hr; cbv zeta.
  unfold TreeMapChart.tooltipRendered in Hr.
  apply andb_true_iff in Hr; destruct Hr as [Hm _].
  unfold TreeMapChart.handleMouseMove; rewrite Hm; cbn [negb TreeMapChart.x
    TreeMapChart.y].
  repeat split; intros H.
  - destruct (Z.gtb_spec (TreeMapChart.clientX e + 220 + 30)
                (TreeMapChart.innerWidth window)); [reflexivity | lia].
  - destruct (Z.gtb_spec (TreeMapChart.clientX e + 220 + 30)
                (TreeMapChart.innerWidth window)); [lia | reflexivity].
  - destruct (Z.gtb_spec (TreeMapChart.clientY e + 180 + 30)
                (TreeMapChart.innerHeight window)); [reflexivity | lia].
  - destruct (Z.gtb_spec (TreeMapChart.clientY e + 180 + 30)
                (TreeMapChart.innerHeight window)); [lia | reflexivity].
Qed.

Lemma tooltip_follows_cursor_witness :
  let pos :=
    TreeMapChart.handleMouseMove
      (TreeMapChart.containerMounted Catalogue.enhanced)
      {| TreeMapChart.innerWidth := 1280; TreeMapChart.innerHeight := 720 |}
      {| TreeMapChart.clientX := 1100; TreeMapChart.clientY := 300 |}
      {| TreeMapChart.x := 0; TreeMapChart.y := 0 |} in
  TreeMapChart.x pos = 864 /\ TreeMapChart.y pos = 316.
Proof.
  cbv zeta.
  destruct (tooltip_follows_cursor Catalogue.enhanced
              (Some (TreeMapChart.toEntry (lit "references")
                       (TreeMapChart.computeMaxMetric Catalogue.enhanced)
                       (App.enhance toLowerCaseBasic Catalogue.acme) 0))
              {| TreeMapChart.innerWidth := 1280; TreeMapChart.innerHeight := 720 |}
              {| TreeMapChart.clientX := 1100; TreeMapChart.clientY := 300 |}
              {| TreeMapChart.x := 0; TreeMapChart.y := 0 |} eq_refl)
    as (Hx & _ & _ & Hy).
  split.
  - rewrite Hx; [reflexivity | simpl; lia].
  - rewrite Hy; [reflexivity | simpl; lia].
Defined.

(** * Further properties of the code *)

(** ** Trimming and city names *)

Lemma dropWhile_head {A} (f : A -> bool) (l : list A) (a : A) (r : list A) :
  dropWhile f l = a :: r -> f a = false.
Proof.
  induction l as [|b l IH]; simpl; [discriminate|].
  destruct (f b) eqn:E; [exact IH|].
  intros H; injection H as <- _; exact E.
Qed.

Lemma dropWhile_fixed {A} (f : A -> bool) (l : list A) :
  match l with [] => True | a :: _ => f a = false end -> dropWhile f l = l.
Proof. destruct l as [|a l]; simpl; [reflexivity | intros ->; reflexivity]. Qed.

Lemma dropWhile_idem {A} (f : A -> bool) (l : list A) :
  dropWhile f (dropWhile f l) = dropWhile f l.
Proof.
  apply dropWhile_fixed.
  destruct (dropWhile f l) as [|a r] eqn:E; [exact I|].
  exact (dropWhile_head f l a r E).
Qed.

Lemma dropWhile_suffix {A} (f : A -> bool) (l : list A) :
  exists pre, l = pre ++ dropWhile f l.
Proof.
  induction l as [|a l (pre & IH)]; simpl; [exists []; reflexivity|].
  destruct (f a); [exists (a :: pre); simpl; congruence | exists []; reflexivity].
Qed.

(** The first and the last code unit of a trimmed text are no white space. *)
Lemma trim_ends (s : jsstring) :
  dropWhile isWhiteSpace (trim s) = trim s
  /\ dropWhile isWhiteSpace (rev (trim s)) = rev (trim s).
Proof.
  unfold trim.
  set (a := dropWhile isWhiteSpace s).
  set (b := dropWhile isWhiteSpace (rev a)).
  assert (Hb : dropWhile isWhiteSpace b = b) by apply dropWhile_idem.
  split; [|rewrite rev_involutive; exact Hb].
  apply dropWhile_fixed.
  destruct (rev b) as [|c r] eqn:Er; [exact I|].
  destruct (dropWhile_suffix isWhiteSpace (rev a)) as (pre & Hpre).
  fold b in Hpre.
  assert (Ha : a = rev b ++ rev pre).
  { rewrite <- rev_app_distr, <- Hpre, rev_involutive; reflexivity. }
  rewrite Er in Ha; simpl in Ha.
  apply (dropWhile_head isWhiteSpace s c (r ++ rev pre)).
  exact Ha.
Qed.

Lemma trim_idem (s : jsstring) : trim (trim s) = trim s.
Proof.
  destruct (trim_ends s) as [H1 H2].
  unfold trim at 1; rewrite H1, H2, rev_involutive; reflexivity.
Qed.

(** X1. A display city has no white space at either end: it is its own
    trimmed form. *)
Theorem normalizeCity_trimmed (toLowerCase : jsstring -> jsstring)
    (city : field) (c : jsstring) :
  App.normalizeCity toLowerCase city = Some c ->
  trim c = c
  /\ (forall a r, c = a :: r -> isWhiteSpace a = false)
  /\ (forall r a, c = r ++ [a] -> isWhiteSpace a = false).
Proof.
  intros H.
  assert (Ht : trim c = c).
  { unfold App.normalizeCity in H.
    destruct (negb (truthy city)); [discriminate|].
    destruct (jsstring_eqb (toLowerCase (trim (fieldToString city))) istanbul
              || jsstring_eqb (trim (fieldToString city)) Istanbul);
      injection H as <-; [reflexivity | apply trim_idem]. }
  split; [exact Ht|].
  destruct (trim_ends c) as [H1 H2]; rewrite Ht in H1, H2.
  split.
  - intros a r ->; apply (dropWhile_head isWhiteSpace _ a r H1).
  - intros r a ->; rewrite rev_app_distr in H2.
    apply (dropWhile_head isWhiteSpace _ a (rev r) H2).
Qed.

Lemma normalizeCity_trimmed_witness :
  App.normalizeCity toLowerCaseBasic (Str (lit "  Bursa  ")) = Some (lit "Bursa")
  /\ trim (lit "Bursa") = lit "Bursa".
Proof.
  split; [reflexivity|].
  apply (normalizeCity_trimmed toLowerCaseBasic (Str (lit "  Bursa  "))).
  reflexivity.
Defined.

(** X2. Normalising is idempotent on city names: a display city that is
    not empty is normalised to itself. *)
Theorem normalizeCity_fixed_point (toLowerCase : jsstring -> jsstring)
    (city : field) (c : jsstring) :
  App.normalizeCity toLowerCase city = Some c ->
  c <> [] ->
  App.normalizeCity toLowerCase (Str c) = Some c.
Proof.
  intros H Hne.
  assert (Hstr : forall t, t <> [] ->
            App.normalizeCity toLowerCase (Str t)
            = if jsstring_eqb (toLowerCase (trim t)) istanbul
                 || jsstring_eqb (trim t) Istanbul
              then Some Istanbul else Some (trim t)).
  { intros [|t0 t] Ht; [congruence | reflexivity]. }
  rewrite (Hstr c Hne).
  unfold App.normalizeCity in H.
  destruct (negb (truthy city)); [discriminate|].
  destruct (jsstring_eqb (toLowerCase (trim (fieldToString city))) istanbul
            || jsstring_eqb (trim (fieldToString city)) Istanbul) eqn:E.
  - assert (Hc : c = Istanbul) by congruence.
    rewrite Hc.
    change (trim Istanbul) with Istanbul.
    rewrite jsstring_eqb_refl, orb_true_r; reflexivity.
  - assert (Hc : c = trim (fieldToString city)) by congruence.
    rewrite Hc, trim_idem, E; reflexivity.
Qed.

Lemma normalizeCity_fixed_point_witness :
  App.normalizeCity toLowerCaseBasic (Str (lit " istanbul ")) = Some Istanbul
  /\ App.normalizeCity toLowerCaseBasic (Str Istanbul) = Some Istanbul.
Proof.
  split; [reflexivity|].
  apply (normalizeCity_fixed_point toLowerCaseBasic (Str (lit " istanbul "))).
  - reflexivity.
  - discriminate.
Defined.

(** ** Parsing counts *)

Lemma digitValue_decimal (c : N) :
  isDigit c = true -> digitValue 10 c = Some (Z.of_N c - 48).
Proof.
  intros H; unfold digitValue.
  unfold isDigit in H; rewrite H.
  apply andb_true_iff in H; destruct H as [H1 H2].
  apply N.leb_le in H1, H2.
  assert (E : (Z.of_N c - 48 <? 10) = true) by (apply Z.ltb_lt; lia).
  rewrite E; reflexivity.
Qed.

Lemma parseDigits_decimal (ds : jsstring) (a : Z) :
  Ref.allDigits ds ->
  parseDigits 10 (Some a) ds
  = Some (fold_left (fun acc c => acc * 10 + (Z.of_N c - 48)) ds a).
Proof.
  intros H; revert a; induction H as [|c ds Hc _ IH]; intros a; simpl.
  - reflexivity.
  - rewrite (digitValue_decimal c Hc); apply IH.
Qed.

Lemma decimal_fold_nonneg (ds : jsstring) (a : Z) :
  Ref.allDigits ds -> 0 <= a ->
  0 <= fold_left (fun acc c => acc * 10 + (Z.of_N c - 48)) ds a.
Proof.
  intros H; revert a; induction H as [|c ds Hc _ IH]; intros a Ha; simpl.
  - exact Ha.
  - apply IH.
    unfold isDigit in Hc; apply andb_true_iff in Hc; destruct Hc as [H1 _].
    apply N.leb_le in H1; lia.
Qed.

Ltac parse_decimal_value r :=
  match goal with
  | |- context [parseDigits 10 None (?c :: r)] =>
      rewrite (parseDigits_head 10 c r (Z.of_N c - 48) eq_refl);
      rewrite parseDigits_decimal by assumption;
      rewrite Z.mul_1_l; reflexivity
  end.

(** A text of decimal digits parses to its decimal value. *)
Lemma parseInt_decimal (ds : jsstring) :
  ds <> [] -> Ref.allDigits ds -> parseInt ds = Num (Ref.decimalValue ds).
Proof.
  intros Hne Hd.
  destruct Hd as [|c r Hc Hr]; [congruence|].
  apply isDigit_cases in Hc.
  unfold parseInt, Ref.decimalValue.
  repeat (destruct Hc as [-> | Hc]); try subst c;
    cbn [dropWhile isWhiteSpace existsb N.eqb N.leb N.compare Pos.eqb
         Pos.compare Pos.compare_cont orb andb];
    try parse_decimal_value r.
  destruct Hr as [|d r' Hd Hr']; [reflexivity|].
  assert (Hall : Ref.allDigits (d :: r')) by (constructor; assumption).
  apply isDigit_cases in Hd.
  repeat (destruct Hd as [-> | Hd]); try subst d;
    match goal with
    | |- context [parseDigits 10 None (48%N :: ?d :: r')] =>
        rewrite (parseDigits_head 10 48%N (d :: r') 0 eq_refl);
        rewrite parseDigits_decimal by assumption;
        rewrite Z.mul_1_l; reflexivity
    end.
Qed.

Lemma takeWhile_run {A} (f : A -> bool) (ds post : list A) :
  Forall (fun a => f a = true) ds ->
  match post with [] => True | a :: _ => f a = false end ->
  takeWhile f (ds ++ post) = ds.
Proof.
  intros Hd Hp; induction Hd as [|a ds Ha _ IH]; simpl.
  - destruct post as [|b post]; simpl; [reflexivity | rewrite Hp; reflexivity].
  - rewrite Ha, IH; reflexivity.
Qed.

(** The digit regex finds the leftmost run of digits, as far as it runs. *)
Lemma matchDigits_leftmost (pre ds post : jsstring) :
  Forall (fun c => isDigit c = false) pre ->
  ds <> [] -> Ref.allDigits ds ->
  match post with [] => True | c :: _ => isDigit c = false end ->
  matchDigits (pre ++ ds ++ post) = Some ds.
Proof.
  intros Hpre Hne Hd Hpost.
  induction Hpre as [|c pre Hc _ IH]; simpl.
  - destruct ds as [|d ds]; [congruence|].
    assert (Hd0 : isDigit d = true) by (inversion Hd; assumption).
    change ((d :: ds) ++ post) with (d :: ds ++ post).
    cbn [matchDigits]; rewrite Hd0.
    change (d :: ds ++ post) with ((d :: ds) ++ post).
    rewrite (takeWhile_run isDigit (d :: ds) post Hd Hpost); reflexivity.
  - rewrite Hc; exact IH.
Qed.

(** X3. A [references_count] (or [certified_experts_count]) written as
    decimal digits that denote at most 2^53 is stored as the number it
    denotes. *)
Theorem enhance_counts_decimal (toLowerCase : jsstring -> jsstring)
    (p : App.RawPartner) (ds : jsstring) :
  ds <> [] -> Ref.allDigits ds -> Ref.decimalValue ds <= 2 ^ 53 ->
  (App.references_count p = Str ds ->
     App.references (App.enhance toLowerCase p) = Num (Ref.decimalValue ds))
  /\ (App.certified_experts_count p = Str ds ->
      App.experts (App.enhance toLowerCase p) = Num (Ref.decimalValue ds)).
Proof.
  intros Hne Hd _.
  assert (Hs : or_zero_string (Str ds) = ds).
  { destruct ds as [|c r]; [congruence | reflexivity]. }
  split; intros E; cbn [App.enhance App.references App.experts];
    rewrite E, Hs; apply parseInt_decimal; assumption.
Qed.

Lemma enhance_counts_decimal_witness :
  App.references (App.enhance toLowerCaseBasic Catalogue.acme) = Num 12.
Proof.
  apply (proj1 (enhance_counts_decimal toLowerCaseBasic Catalogue.acme
                  (lit "12") ltac:(discriminate)
                  ltac:(repeat constructor) ltac:(vm_compute; discriminate))).
  reflexivity.
Defined.

(** X4. [average_users] and [large_users] are the value of the first run
    of digits of the size text, when that value is at most 2^53: what
    precedes the run holds no digit and what follows it does not start with
    one. *)
Theorem enhance_users_first_digit_run (toLowerCase : jsstring -> jsstring)
    (p : App.RawPartner) (pre ds post : jsstring) :
  Forall (fun c => isDigit c = false) pre ->
  ds <> [] -> Ref.allDigits ds -> Ref.decimalValue ds <= 2 ^ 53 ->
  match post with [] => True | c :: _ => isDigit c = false end ->
  (App.average_project_size p = Str (pre ++ ds ++ post) ->
     App.average_users (App.enhance toLowerCase p)
     = Num (Ref.decimalValue ds))
  /\ (App.large_project_size p = Str (pre ++ ds ++ post) ->
      App.large_users (App.enhance toLowerCase p)
      = Num (Ref.decimalValue ds)).
Proof.
  intros Hpre Hne Hd _ Hpost.
  assert (Hf : firstDigitsOrZero (Str (pre ++ ds ++ post)) = ds).
  { unfold firstDigitsOrZero.
    rewrite (matchDigits_leftmost pre ds post Hpre Hne Hd Hpost).
    destruct ds as [|c r]; [congruence | reflexivity]. }
  split; intros E; cbn [App.enhance App.average_users App.large_users];
    rewrite E, Hf; apply parseInt_decimal; assumption.
Qed.

Lemma enhance_users_first_digit_run_witness :
  App.large_users (App.enhance toLowerCaseBasic Catalogue.acme) = Num 100.
Proof.
  apply (proj2 (enhance_users_first_digit_run toLowerCaseBasic Catalogue.acme
                  [] (lit "100") (lit "+ users")
                  ltac:(constructor) ltac:(discriminate)
                  ltac:(repeat constructor) ltac:(vm_compute; discriminate)
                  eq_refl)).
  reflexivity.
Defined.

(** X5. Whatever the record holds, [average_users] and [large_users] are
    numbers that are not negative and [districtValue] is a number: of the
    derived counts only [references] and [experts] can be [NaN]. *)
Theorem enhance_users_and_district_are_numbers
    (toLowerCase : jsstring -> jsstring) (p : App.RawPartner) :
  (exists a, App.average_users (App.enhance toLowerCase p) = Num a /\ 0 <= a)
  /\ (exists b, App.large_users (App.enhance toLowerCase p) = Num b /\ 0 <= b)
  /\ Ref.isNumber (App.districtValue (App.enhance toLowerCase p)).
Proof.
  assert (H : forall f, exists a, parseInt (firstDigitsOrZero f) = Num a /\ 0 <= a).
  { intros f.
    assert (Hz : exists a, parseInt (lit "0") = Num a /\ 0 <= a)
      by (exists 0; split; [reflexivity | lia]).
    destruct f as [| |s]; try exact Hz.
    unfold firstDigitsOrZero.
    destruct (matchDigits s) as [m|] eqn:E; [|exact Hz].
    destruct (matchDigits_run s m E) as (c & r & -> & Hc & Hr).
    assert (Hd : Ref.allDigits (c :: r)) by (constructor; assumption).
    exists (Ref.decimalValue (c :: r)); split.
    - apply parseInt_decimal; [discriminate | exact Hd].
    - apply decimal_fold_nonneg; [exact Hd | lia]. }
  split; [apply H | split; [apply H | apply districtValue_is_number]].
Qed.

(** ** Toggling tiers and cities *)

Lemma removeString_In (x y : jsstring) (l : list jsstring) :
  In y (App.removeString x l) <-> In y l /\ y <> x.
Proof.
  unfold App.removeString; rewrite filter_In, negb_true_iff.
  rewrite <- jsstring_eqb_eq.
  destruct (jsstring_eqb y x); split; intros [H1 H2]; split;
    congruence.
Qed.

Lemma toggle_In (x y : jsstring) (l : list jsstring) :
  In y (App.toggle x l)
  <-> (y = x /\ ~ In x l) \/ (y <> x /\ In y l).
Proof.
  unfold App.toggle.
  destruct (App.arrayIncludes l x) eqn:E.
  - apply arrayIncludes_In in E.
    rewrite removeString_In; split.
    + intros [H1 H2]; right; auto.
    + intros [[-> H] | [H1 H2]]; [contradiction | auto].
  - assert (Hx : ~ In x l).
    { intros H; apply arrayIncludes_In in H; congruence. }
    rewrite in_app_iff; simpl; split.
    + intros [H | [<- | []]].
      * right; split; [intros ->; contradiction | exact H].
      * left; auto.
    + intros [[-> _] | [_ H]]; [right; left; reflexivity | left; exact H].
Qed.

Lemma toggle_NoDup (x : jsstring) (l : list jsstring) :
  NoDup l -> NoDup (App.toggle x l).
Proof.
  intros H; unfold App.toggle.
  destruct (App.arrayIncludes l x) eqn:E.
  - apply NoDup_filter; exact H.
  - apply NoDup_app; [exact H | repeat constructor; intros [] |].
    intros a Ha [<- | []].
    apply arrayIncludes_In in Ha; congruence.
Qed.

(** X6. Toggling a tier flips that tier's checkbox and leaves every other
    tier, the reference bounds and the selected cities as they were; toggling
    a city does the same for the city checkboxes. *)
Theorem toggle_flips_one_checkbox (toLowerCase : jsstring -> jsstring)
    (s : App.AppState) (x : jsstring) :
  let f := App.filters s in
  let fl := App.filters (App.handle toLowerCase (App.ToggleLevel x) s) in
  let fc := App.filters (App.handle toLowerCase (App.ToggleCity x) s) in
  (App.arrayIncludes (App.levels fl) x = negb (App.arrayIncludes (App.levels f) x)
   /\ (forall y, y <> x ->
         App.arrayIncludes (App.levels fl) y
         = App.arrayIncludes (App.levels f) y)
   /\ App.selectedCities fl = App.selectedCities f
   /\ App.minReferences fl = App.minReferences f
   /\ App.maxReferences fl = App.maxReferences f)
  /\ (App.arrayIncludes (App.selectedCities fc) x
      = negb (App.arrayIncludes (App.selectedCities f) x)
      /\ (forall y, y <> x ->
            App.arrayIncludes (App.selectedCities fc) y
            = App.arrayIncludes (App.selectedCities f) y)
      /\ App.levels fc = App.levels f
      /\ App.minReferences fc = App.minReferences f
      /\ App.maxReferences fc = App.maxReferences f).
Proof.
  cbv zeta; cbn [App.handle App.setFilters App.filters App.levels
    App.selectedCities App.minReferences App.maxReferences].
  assert (Hflip : forall l,
            App.arrayIncludes (App.toggle x l) x = negb (App.arrayIncludes l x)).
  { intros l; apply eq_true_iff_eq.
    rewrite negb_true_iff, arrayIncludes_In, toggle_In.
    rewrite <- not_true_iff_false, arrayIncludes_In.
    split; [intros [[_ H] | [H _]]; congruence | intros H; left; auto]. }
  assert (Hkeep : forall l y, y <> x ->
            App.arrayIncludes (App.toggle x l) y = App.arrayIncludes l y).
  { intros l y Hy; apply eq_true_iff_eq.
    rewrite !arrayIncludes_In, toggle_In.
    split; [intros [[H _] | [_ H]]; congruence | intros H; right; auto]. }
  repeat split; auto.
Qed.

(** X7. In every state the application reaches, whatever is toggled, the
    selected tiers and the selected cities hold no name twice. *)
Theorem reachable_selections_NoDup (toLowerCase : jsstring -> jsstring)
    (s : App.AppState) :
  App.reachable toLowerCase s ->
  NoDup (App.levels (App.filters s))
  /\ NoDup (App.selectedCities (App.filters s)).
Proof.
  assert (Hinit : NoDup (App.levels App.initialFilters)).
  { repeat constructor; simpl; intros H;
      repeat (destruct H as [H | H]; [discriminate H|]); exact H. }
  assert (Hh : forall e s0,
            NoDup (App.levels (App.filters s0))
            /\ NoDup (App.selectedCities (App.filters s0)) ->
            NoDup (App.levels (App.filters (App.handle toLowerCase e s0)))
            /\ NoDup (App.selectedCities
                        (App.filters (App.handle toLowerCase e s0)))).
  { intros e s0 [H1 H2].
    destruct e as [data| |q|[|] v|lv|c|m]; simpl; split;
      try assumption; try (apply toggle_NoDup; assumption).
    apply uniqueCities_spec. }
  induction 1 as [|s s' Hs IH Hstep].
  - split; [exact Hinit | constructor].
  - destruct Hstep as [e s He | e s He _]; [|apply Hh; exact IH].
    apply (Hh e s IH).
Qed.

Lemma reachable_selections_NoDup_witness :
  NoDup (App.selectedCities (App.filters Catalogue.searched)).
Proof.
  apply (reachable_selections_NoDup toLowerCaseBasic Catalogue.searched).
  pose (s0 := App.runFilterEffect toLowerCaseBasic App.initialState).
  pose (s1 := App.runFilterEffect toLowerCaseBasic
                (App.handle toLowerCaseBasic (App.Loaded Catalogue.data) s0)).
  apply App.reach_step with (s := s1).
  - apply App.reach_step with (s := s0).
    + apply App.reach_mount.
    + apply (App.step_run _ (App.Loaded Catalogue.data) s0); reflexivity.
  - apply (App.step_run _ (App.SetSearchQuery (lit "acme")) s1); reflexivity.
Defined.

(** ** Steps raised through the sidebar *)

Lemma uiReachable_reachable (toLowerCase : jsstring -> jsstring)
    (s : App.AppState) :
  SidebarView.uiReachable toLowerCase s -> App.reachable toLowerCase s.
Proof.
  induction 1 as [|s s' Hs IH Hstep]; [apply App.reach_mount|].
  apply App.reach_step with (s := s); [exact IH|].
  destruct Hstep as [e s He _ | e s He _ Hd];
    [apply App.step_run | apply App.step_skip]; assumption.
Qed.

(** What the selections hold in a state reached through the controls. *)
Lemma uiReachable_selections (toLowerCase : jsstring -> jsstring)
    (s : App.AppState) :
  SidebarView.uiReachable toLowerCase s ->
  incl (App.levels (App.filters s)) Sidebar.levelOptions
  /\ (forall c, In c (App.selectedCities (App.filters s)) ->
        c <> []
        /\ exists p, In p (App.partners s) /\ App.displayCity p = Some c).
Proof.
  assert (Hh : forall e s0,
            SidebarView.offers e s0 ->
            incl (App.levels (App.filters s0)) Sidebar.levelOptions
            /\ incl (App.selectedCities (App.filters s0))
                 (SidebarView.uniqueCities (App.partners s0)) ->
            incl (App.levels (App.filters (App.handle toLowerCase e s0)))
              Sidebar.levelOptions
            /\ incl (App.selectedCities
                       (App.filters (App.handle toLowerCase e s0)))
                 (SidebarView.uniqueCities
                    (App.partners (App.handle toLowerCase e s0)))).
  { intros e s0 Ho [H1 H2].
    destruct e as [data| |q|[|] v|lv|c|m]; simpl in Ho |- *; split;
      try assumption.
    - apply incl_refl.
    - intros y Hy; apply toggle_In in Hy.
      destruct Hy as [[-> _] | [_ Hy]]; [exact Ho | apply H1; exact Hy].
    - intros y Hy; apply toggle_In in Hy.
      destruct Hy as [[-> _] | [_ Hy]]; [exact Ho | apply H2; exact Hy]. }
  intros Hr.
  assert (Hinv : incl (App.levels (App.filters s)) Sidebar.levelOptions
                 /\ incl (App.selectedCities (App.filters s))
                      (SidebarView.uniqueCities (App.partners s))).
  { induction Hr as [|s s' Hs IH Hstep].
    - split; [apply incl_refl | intros c []].
    - destruct Hstep as [e s He Ho | e s He Ho _]; apply (Hh e s Ho IH). }
  destruct Hinv as [H1 H2]; split; [exact H1|].
  intros c Hc; apply (proj2 (proj2 (uniqueCities_spec (App.partners s)))).
  apply H2; exact Hc.
Qed.

(** X8. Through the rendered controls the selections stay within what the
    sidebar lists: every selected tier is Gold, Silver or Ready, and every
    selected city is the display city, not empty, of a loaded partner. *)
Theorem ui_selections_within_domain (toLowerCase : jsstring -> jsstring)
    (s : App.AppState) :
  SidebarView.uiReachable toLowerCase s ->
  incl (App.levels (App.filters s)) Sidebar.levelOptions
  /\ (forall c, In c (App.selectedCities (App.filters s)) ->
        c <> []
        /\ exists p, In p (App.partners s) /\ App.displayCity p = Some c).
Proof. exact (uiReachable_selections toLowerCase s). Qed.

Lemma ui_selections_within_domain_witness :
  incl (App.levels (App.filters Catalogue.searched)) Sidebar.levelOptions.
Proof.
  apply (ui_selections_within_domain toLowerCaseBasic Catalogue.searched).
  pose (s0 := App.runFilterEffect toLowerCaseBasic App.initialState).
  pose (s1 := App.runFilterEffect toLowerCaseBasic
                (App.handle toLowerCaseBasic (App.Loaded Catalogue.data) s0)).
  apply SidebarView.ui_step with (s := s1).
  - apply SidebarView.ui_step with (s := s0).
    + apply SidebarView.ui_mount.
    + apply (SidebarView.ui_run _ (App.Loaded Catalogue.data) s0);
        [reflexivity | exact I].
  - apply (SidebarView.ui_run _ (App.SetSearchQuery (lit "acme")) s1);
      [reflexivity | exact I].
Defined.

(** ** Composing and comparing filters *)

(** X9. Filtering composes: filtering an already filtered list again with
    the same settings changes nothing, and two filterings with different
    settings give the same list in either order. *)
Theorem applyFilters_composes (toLowerCase : jsstring -> jsstring)
    (ps : list App.Partner) (q1 q2 : jsstring) (f1 f2 : App.Filters) :
  App.applyFilters toLowerCase (App.applyFilters toLowerCase ps q1 f1) q1 f1
  = App.applyFilters toLowerCase ps q1 f1
  /\ App.applyFilters toLowerCase (App.applyFilters toLowerCase ps q1 f1) q2 f2
     = App.applyFilters toLowerCase (App.applyFilters toLowerCase ps q2 f2) q1 f1.
Proof.
  rewrite !applyFilters_filter, !filter_filter_andb; split.
  - apply filter_ext; intros p.
    destruct (Spec.passesCriteria toLowerCase q1 f1 p); reflexivity.
  - apply filter_ext; intros p; apply andb_comm.
Qed.

(** X10. In every state the application settles in, the number of visible
    partners is at most the number of partners, and every visible partner is
    one of them. *)
Theorem reachable_filtered_within_partners
    (toLowerCase : jsstring -> jsstring) (s : App.AppState) :
  App.reachable toLowerCase s ->
  (List.length (App.filteredPartners s) <= List.length (App.partners s))%nat
  /\ incl (App.filteredPartners s) (App.partners s).
Proof.
  intros Hr.
  destruct (reachable_settled toLowerCase s Hr) as [E _].
  rewrite E, applyFilters_filter; split.
  - apply filter_length_le.
  - apply incl_filter.
Qed.

Lemma reachable_filtered_within_partners_witness :
  (List.length (App.filteredPartners Catalogue.searched)
   <= List.length (App.partners Catalogue.searched))%nat.
Proof.
  apply (reachable_filtered_within_partners toLowerCaseBasic Catalogue.searched).
  pose (s0 := App.runFilterEffect toLowerCaseBasic App.initialState).
  pose (s1 := App.runFilterEffect toLowerCaseBasic
                (App.handle toLowerCaseBasic (App.Loaded Catalogue.data) s0)).
  apply App.reach_step with (s := s1).
  - apply App.reach_step with (s := s0).
    + apply App.reach_mount.
    + apply (App.step_run _ (App.Loaded Catalogue.data) s0); reflexivity.
  - apply (App.step_run _ (App.SetSearchQuery (lit "acme")) s1); reflexivity.
Defined.

(** No references value lies within bounds that cross or are [NaN]. *)
Lemma applyFilters_empty_range
    (toLowerCase : jsstring -> jsstring) (ps : list App.Partner)
    (q : jsstring) (f : App.Filters) :
  (App.minReferences f = NaN
   \/ App.maxReferences f = NaN
   \/ exists lo hi,
        App.minReferences f = Num lo /\ App.maxReferences f = Num hi
        /\ hi < lo) ->
  App.applyFilters toLowerCase ps q f = [].
Proof.
  intros H.
  rewrite applyFilters_filter.
  apply filter_none; intros p.
  assert (E : App.inReferenceRange f p = false).
  { unfold App.inReferenceRange.
    destruct H as [-> | [-> | (lo & hi & -> & -> & Hlt)]].
    - reflexivity.
    - destruct (App.minReferences f), (App.references p); simpl;
        rewrite ?andb_false_r; reflexivity.
    - destruct (App.references p) as [|r]; [reflexivity|].
      simpl; apply andb_false_iff.
      destruct (Z.leb_spec lo r); [right; apply Z.leb_gt; lia | left; reflexivity]. }
  unfold Spec.passesCriteria; rewrite E.
  rewrite andb_false_r; reflexivity.
Qed.

(** X11. When the two sliders cross (the minimum above the maximum), or
    when either bound is [NaN], no partner is visible. *)
Theorem crossed_or_NaN_bounds_show_nothing
    (toLowerCase : jsstring -> jsstring) (ps : list App.Partner)
    (q : jsstring) (f : App.Filters) :
  (App.minReferences f = NaN
   \/ App.maxReferences f = NaN
   \/ exists lo hi,
        App.minReferences f = Num lo /\ App.maxReferences f = Num hi
        /\ hi < lo) ->
  App.applyFilters toLowerCase ps q f = [].
Proof. exact (applyFilters_empty_range toLowerCase ps q f). Qed.

Lemma crossed_or_NaN_bounds_show_nothing_witness :
  App.applyFilters toLowerCaseBasic Catalogue.enhanced []
    {| App.levels := [];
       App.minReferences := Num 10;
       App.maxReferences := Num 5;
       App.selectedCities := [lit "Ankara"; lit "Izmir"] |} = [].
Proof.
  apply crossed_or_NaN_bounds_show_nothing.
  right; right; exists 10, 5; repeat split; lia.
Defined.

(** X12. Widening a filter never hides a partner: with the same search
    text, more cities selected, reference bounds that contain the old ones,
    and a tier selection that is empty or contains the old non-empty one,
    every partner that was visible stays visible. *)
Theorem widening_filters_keeps_visible (toLowerCase : jsstring -> jsstring)
    (ps : list App.Partner) (q : jsstring) (f f' : App.Filters) :
  incl (App.selectedCities f) (App.selectedCities f') ->
  num_leb (App.minReferences f') (App.minReferences f) = true ->
  num_leb (App.maxReferences f) (App.maxReferences f') = true ->
  (App.levels f' = []
   \/ (App.levels f <> [] /\ incl (App.levels f) (App.levels f'))) ->
  incl (App.applyFilters toLowerCase ps q f)
       (App.applyFilters toLowerCase ps q f').
Proof.
  intros Hc Hlo Hhi Hlv p.
  rewrite !applyFilters_filter, !filter_In.
  intros [Hp Hpass]; split; [exact Hp|].
  apply passesCriteria_iff in Hpass; apply passesCriteria_iff.
  destruct Hpass as (Hs & Hl & Hr & Hcity).
  split; [exact Hs | split; [|split]].
  - intros Hne'.
    destruct Hlv as [E | [Hne Hincl]]; [congruence|].
    destruct (Hl Hne) as (lv & E & Hin).
    exists lv; split; [exact E | apply Hincl; exact Hin].
  - destruct Hr as (lo & r & hi & E1 & E2 & E3 & H1 & H2).
    apply num_leb_le in Hlo, Hhi.
    destruct Hlo as (lo' & lo0 & E4 & E5 & H3).
    destruct Hhi as (hi0 & hi' & E6 & E7 & H4).
    rewrite E1 in E5; injection E5 as <-.
    rewrite E3 in E6; injection E6 as <-.
    exists lo', r, hi'; repeat split; try assumption; lia.
  - destruct Hcity as (c & E & Hin).
    exists c; split; [exact E | apply Hc; exact Hin].
Qed.

Lemma widening_filters_keeps_visible_witness :
  incl (App.applyFilters toLowerCaseBasic Catalogue.enhanced (lit "acme")
          Catalogue.goldOnly)
       (App.applyFilters toLowerCaseBasic Catalogue.enhanced (lit "acme")
          Catalogue.noLevels).
Proof.
  apply widening_filters_keeps_visible.
  - apply incl_refl.
  - reflexivity.
  - reflexivity.
  - left; reflexivity.
Defined.

(** ** What is visible once the dataset is loaded *)

(** X13. Right after the dataset arrives, when every [references] value is
    a number, the visible partners are exactly those whose tier is Gold,
    Silver or Ready, whose references value is not negative and whose display
    city is neither [null] nor empty. *)
Theorem visible_after_load (toLowerCase : jsstring -> jsstring)
    (data : list App.RawPartner) :
  let mount := App.runFilterEffect toLowerCase App.initialState in
  let s :=
    App.runFilterEffect toLowerCase
      (App.handle toLowerCase (App.Loaded data) mount) in
  Forall (fun p => Ref.isNumber (App.references p)) (App.partners s) ->
  forall p,
    In p (App.filteredPartners s)
    <-> In p (App.partners s)
        /\ (exists lv, App.level (App.raw p) = Str lv
                       /\ In lv Sidebar.levelOptions)
        /\ (exists r, App.references p = Num r /\ 0 <= r)
        /\ (exists c, App.displayCity p = Some c /\ c <> []).
Proof.
  cbv zeta.
  cbn [App.runFilterEffect App.handle App.setFilteredPartners App.partners
       App.filteredPartners App.searchQuery App.filters App.initialState
       App.initialFilters App.levels App.minReferences].
  set (ps := map (App.enhance toLowerCase) data).
  intros Hnum p.
  destruct (math_max_numbers (map App.references ps) 100)
    as (m & Em & _ & Hub & _).
  { rewrite Forall_map.
    eapply Forall_impl; [|exact Hnum].
    intros a (z & E); congruence. }
  rewrite applyFilters_filter, filter_In, passesCriteria_iff.
  unfold Spec.Criteria;
    cbn [App.levels App.minReferences App.maxReferences App.selectedCities].
  fold (App.maxRefs ps); unfold App.maxRefs; rewrite Em.
  split.
  - intros (Hp & _ & Hl & (lo & r & hi & E1 & E2 & E3 & H1 & H2) & (c & Ec & Hc)).
    injection E1 as <-.
    split; [exact Hp | split; [apply Hl; discriminate | split]].
    + exists r; auto.
    + exists c; split; [exact Ec|].
      apply (proj2 (proj2 (uniqueCities_spec ps))) in Hc; tauto.
  - intros (Hp & Hl & (r & Er & Hr) & (c & Ec & Hc)).
    split; [exact Hp | split; [intros H; congruence | split; [intros _; exact Hl | split]]].
    + exists 0, r, m; repeat split; try assumption.
      apply Hub; rewrite <- Er; apply in_map; exact Hp.
    + exists c; split; [exact Ec|].
      apply (proj2 (proj2 (uniqueCities_spec ps))).
      split; [exact Hc | exists p; auto].
Qed.

Lemma visible_after_load_witness :
  let mount := App.runFilterEffect toLowerCaseBasic App.initialState in
  let s :=
    App.runFilterEffect toLowerCaseBasic
      (App.handle toLowerCaseBasic (App.Loaded Catalogue.data) mount) in
  In (App.enhance toLowerCaseBasic Catalogue.acme) (App.filteredPartners s)
  /\ ~ In (App.enhance toLowerCaseBasic Catalogue.nomad) (App.filteredPartners s).
Proof.
  cbv zeta.
  assert (Hnum : Forall (fun p => Ref.isNumber (App.references p))
                   (map (App.enhance toLowerCaseBasic) Catalogue.data)).
  { repeat constructor; eexists; reflexivity. }
  split.
  - apply (visible_after_load toLowerCaseBasic Catalogue.data Hnum).
    split; [left; reflexivity | split; [|split]].
    + exists (lit "Gold"); split; [reflexivity | left; reflexivity].
    + exists 12; split; [reflexivity | lia].
    + exists (lit "Ankara"); split; [reflexivity | discriminate].
  - intros H.
    apply (visible_after_load toLowerCaseBasic Catalogue.data Hnum) in H.
    destruct H as (_ & _ & _ & (c & Ec & _)); discriminate Ec.
Defined.

(** X14. One record whose [references] is [NaN] hides the whole catalogue:
    right after such a dataset arrives no partner is visible. *)
Theorem NaN_references_hide_everything (toLowerCase : jsstring -> jsstring)
    (data : list App.RawPartner) :
  let mount := App.runFilterEffect toLowerCase App.initialState in
  let s :=
    App.runFilterEffect toLowerCase
      (App.handle toLowerCase (App.Loaded data) mount) in
  (exists p, In p (App.partners s) /\ App.references p = NaN) ->
  App.maxReferences (App.filters s) = NaN
  /\ App.filteredPartners s = [].
Proof.
  cbv zeta.
  cbn [App.runFilterEffect App.handle App.setFilteredPartners App.partners
       App.filteredPartners App.searchQuery App.filters App.initialState
       App.maxReferences].
  intros H.
  pose proof (maxRefs_NaN _ H) as E.
  split; [exact E|].
  apply applyFilters_empty_range.
  right; left; exact E.
Qed.

Lemma NaN_references_hide_everything_witness :
  let mount := App.runFilterEffect toLowerCaseBasic App.initialState in
  let s :=
    App.runFilterEffect toLowerCaseBasic
      (App.handle toLowerCaseBasic
         (App.Loaded (Catalogue.unparsable :: Catalogue.data)) mount) in
  List.length (App.partners s) = 4%nat /\ App.filteredPartners s = [].
Proof.
  cbv zeta; split; [reflexivity|].
  apply (NaN_references_hide_everything toLowerCaseBasic
           (Catalogue.unparsable :: Catalogue.data)).
  exists (App.enhance toLowerCaseBasic Catalogue.unparsable).
  split; [left; reflexivity | reflexivity].
Defined.

(** X15. A partner that is visible in a state reached through the controls
    has a references value that is a number and a display city that is not
    empty, so its tooltip shows that city and never the 'Türkiye' default. *)
Theorem visible_partner_has_city (toLowerCase : jsstring -> jsstring)
    (s : App.AppState) (p : App.Partner) :
  SidebarView.uiReachable toLowerCase s ->
  In p (App.filteredPartners s) ->
  Ref.isNumber (App.references p)
  /\ exists c,
       App.displayCity p = Some c /\ c <> []
       /\ forall areaMetric maxMetric i,
            Tooltip.locationShown
              (TreeMapChart.toEntry areaMetric maxMetric p i) = c.
Proof.
  intros Hr Hp.
  destruct (reachable_settled toLowerCase s
              (uiReachable_reachable toLowerCase s Hr)) as [E _].
  rewrite E, applyFilters_filter, filter_In, passesCriteria_iff in Hp.
  destruct Hp as (_ & _ & _ & (lo & r & hi & _ & Er & _) & (c & Ec & Hc)).
  split; [exists r; exact Er|].
  exists c.
  destruct (uiReachable_selections toLowerCase s Hr) as [_ Hdom].
  destruct (Hdom c Hc) as [Hne _].
  split; [exact Ec | split; [exact Hne|]].
  intros am m i.
  unfold Tooltip.locationShown; cbn [TreeMapChart.toEntry TreeMapChart.displayCity].
  rewrite Ec; destruct c; [congruence | reflexivity].
Qed.

Lemma visible_partner_has_city_witness :
  Ref.isNumber
    (App.references (App.enhance toLowerCaseBasic Catalogue.acme)).
Proof.
  apply (visible_partner_has_city toLowerCaseBasic Catalogue.searched
           (App.enhance toLowerCaseBasic Catalogue.acme)).
  - pose (s0 := App.runFilterEffect toLowerCaseBasic App.initialState).
    pose (s1 := App.runFilterEffect toLowerCaseBasic
                  (App.handle toLowerCaseBasic (App.Loaded Catalogue.data) s0)).
    apply SidebarView.ui_step with (s := s1).
    + apply SidebarView.ui_step with (s := s0).
      * apply SidebarView.ui_mount.
      * apply (SidebarView.ui_run _ (App.Loaded Catalogue.data) s0);
          [reflexivity | exact I].
    + apply (SidebarView.ui_run _ (App.SetSearchQuery (lit "acme")) s1);
        [reflexivity | exact I].
  - left; reflexivity.
Defined.

(** ** Tooltip placement within the viewport *)

(** X16. While the container is mounted, the tooltip is placed at least 16
    pixels away from the cursor on both axes, so the 220 by 180 box the
    handler assumes never covers it; and in a viewport of at least 486 by 406
    pixels that box lies wholly inside the viewport for every cursor position
    inside it. *)
Theorem tooltip_clear_of_cursor_and_inside (window : TreeMapChart.Window)
    (e : TreeMapChart.MouseEvent) (tooltipPos : TreeMapChart.Pos) :
  let cx := TreeMapChart.clientX e in
  let cy := TreeMapChart.clientY e in
  let W := TreeMapChart.innerWidth window in
  let H := TreeMapChart.innerHeight window in
  let pos := TreeMapChart.handleMouseMove true window e tooltipPos in
  ((TreeMapChart.x pos = cx + 16 \/ TreeMapChart.x pos + 220 = cx - 16)
   /\ (TreeMapChart.y pos = cy + 16 \/ TreeMapChart.y pos + 180 = cy - 16))
  /\ (486 <= W -> 0 <= cx <= W ->
      0 <= TreeMapChart.x pos /\ TreeMapChart.x pos + 220 <= W)
  /\ (406 <= H -> 0 <= cy <= H ->
      0 <= TreeMapChart.y pos /\ TreeMapChart.y pos + 180 <= H).
Proof.
  cbv zeta; unfold TreeMapChart.handleMouseMove;
    cbn [negb TreeMapChart.x TreeMapChart.y].
  destruct (Z.gtb_spec (TreeMapChart.clientX e + 220 + 30)
              (TreeMapChart.innerWidth window));
    destruct (Z.gtb_spec (TreeMapChart.clientY e + 180 + 30)
                (TreeMapChart.innerHeight window));
    repeat split; try lia; try (left; lia); try (right; lia).
Qed.

Lemma tooltip_clear_of_cursor_and_inside_witness :
  let pos :=
    TreeMapChart.handleMouseMove true
      {| TreeMapChart.innerWidth := 1280; TreeMapChart.innerHeight := 720 |}
      {| TreeMapChart.clientX := 1270; TreeMapChart.clientY := 715 |}
      {| TreeMapChart.x := 0; TreeMapChart.y := 0 |} in
  (0 <= TreeMapChart.x pos /\ TreeMapChart.x pos + 220 <= 1280)
  /\ (0 <= TreeMapChart.y pos /\ TreeMapChart.y pos + 180 <= 720).
Proof.
  cbv zeta.
  destruct (tooltip_clear_of_cursor_and_inside
              {| TreeMapChart.innerWidth := 1280; TreeMapChart.innerHeight := 720 |}
              {| TreeMapChart.clientX := 1270; TreeMapChart.clientY := 715 |}
              {| TreeMapChart.x := 0; TreeMapChart.y := 0 |})
    as (_ & Hx & Hy).
  split; [apply Hx | apply Hy]; simpl; lia.
Defined.

(** ** Tooltip state *)

(** X17. After any sequence of pointer events, an entry held as tooltip
    data has a name that is not empty; the tooltip data is cleared by the last
    mouse-leave; and while the chart shows no partner the tooltip position
    stays where it was. *)
Theorem tooltip_state_invariants (partners : list App.Partner)
    (evs : list Tooltip.ChartEvent) :
  let s := Tooltip.run partners evs Tooltip.initialChart in
  (forall d, Tooltip.tooltipData s = Some d -> TreeMapChart.name d <> [])
  /\ (forall evs', evs = evs' ++ [Tooltip.MouseLeave] ->
        TreeMapChart.tooltipRendered partners (Tooltip.tooltipData s) = false)
  /\ (partners = [] ->
      Tooltip.tooltipPos s = Tooltip.tooltipPos Tooltip.initialChart).
Proof.
  cbv zeta; unfold Tooltip.run.
  split; [|split].
  - assert (G : forall s0,
              (forall d, Tooltip.tooltipData s0 = Some d ->
                         TreeMapChart.name d <> []) ->
              forall d,
                Tooltip.tooltipData
                  (fold_left (fun st ev => Tooltip.chartStep partners ev st)
                     evs s0) = Some d ->
                TreeMapChart.name d <> []).
    { induction evs as [|ev evs IH]; intros s0 H0; [exact H0|].
      simpl; apply IH.
      destruct ev as [[d0|]| |w m]; simpl; try assumption.
      - unfold Tooltip.handleMouseEnter.
        destruct (TreeMapChart.name d0) as [|c r] eqn:E; simpl; [exact H0|].
        intros d Hd; injection Hd as <-; rewrite E; discriminate.
      - intros d Hd; discriminate Hd. }
    apply G; intros d Hd; discriminate Hd.
  - intros evs' ->.
    rewrite fold_left_app; simpl.
    apply andb_false_r.
  - intros ->.
    generalize Tooltip.initialChart.
    induction evs as [|ev evs IH]; intros s0; [reflexivity|].
    simpl; rewrite IH.
    destruct ev as [[d0|]| |w m]; try reflexivity.
    unfold Tooltip.chartStep, Tooltip.handleMouseEnter.
    destruct (App.nonEmpty (TreeMapChart.name d0)); reflexivity.
Qed.

Lemma tooltip_state_invariants_witness :
  let e :=
    TreeMapChart.toEntry (lit "references") (Num 12)
      (App.enhance toLowerCaseBasic Catalogue.acme) 0 in
  TreeMapChart.tooltipRendered Catalogue.enhanced
    (Tooltip.tooltipData
       (Tooltip.run Catalogue.enhanced
          [Tooltip.MouseEnter (Some e); Tooltip.MouseLeave]
          Tooltip.initialChart)) = false.
Proof.
  cbv zeta.
  set (e := TreeMapChart.toEntry (lit "references") (Num 12)
              (App.enhance toLowerCaseBasic Catalogue.acme) 0).
  apply (proj1 (proj2 (tooltip_state_invariants Catalogue.enhanced
                         [Tooltip.MouseEnter (Some e); Tooltip.MouseLeave]))
           [Tooltip.MouseEnter (Some e)]).
  reflexivity.
Defined.

(** ** The content of a box *)

Lemma qgtb_spec (a b : Q) :
  BoolSpec (b < a)%Q (a <= b)%Q (CustomizedContent.qgtb a b).
Proof.
  unfold CustomizedContent.qgtb, CustomizedContent.qltb.
  destruct (Qle_bool a b) eqn:E; simpl; constructor.
  - apply Qle_bool_iff; exact E.
  - apply Qnot_le_lt; intros H; apply Qle_bool_iff in H; congruence.
Qed.

Lemma qltb_spec (a b : Q) :
  BoolSpec (a < b)%Q (b <= a)%Q (CustomizedContent.qltb a b).
Proof. apply (qgtb_spec b a). Qed.

Ltac split_thresholds :=
  repeat match goal with
         | |- context [CustomizedContent.qgtb ?a ?b] =>
             destruct (qgtb_spec a b); cbn [andb orb]
         | |- context [CustomizedContent.qltb ?a ?b] =>
             destruct (qltb_spec a b); cbn [andb orb]
         end.

Lemma getMaxChars_range (rw : Q) :
  In (CustomizedContent.getMaxChars rw) [8; 12; 16; 22; 28]%nat.
Proof.
  unfold CustomizedContent.getMaxChars.
  split_thresholds; simpl; tauto.
Qed.

(** X18. Label density follows the box through fixed thresholds: the font
    size is 13 exactly for a rectangle wider than 150 and higher than 60, at
    least 11 exactly for one above 100 by 45, at least 9 exactly for one
    above 60 by 30, and 8 otherwise; the character budget is 28 above a width
    of 180, at least 22 above 140, at least 16 above 100, at least 12 above
    70, and 8 otherwise.  So a box at least as wide and as high never gets a
    smaller font or budget. *)
Theorem label_density_monotone (rw rh rw' rh' : Q) :
  ((CustomizedContent.getFontSize rw rh = 13 <-> (150 < rw /\ 60 < rh)%Q)
   /\ (11 <= CustomizedContent.getFontSize rw rh
       <-> (100 < rw /\ 45 < rh)%Q)
   /\ (9 <= CustomizedContent.getFontSize rw rh <-> (60 < rw /\ 30 < rh)%Q)
   /\ In (CustomizedContent.getFontSize rw rh) [8; 9; 11; 13])
  /\ ((CustomizedContent.getMaxChars rw = 28%nat <-> (180 < rw)%Q)
      /\ ((22 <= CustomizedContent.getMaxChars rw)%nat <-> (140 < rw)%Q)
      /\ ((16 <= CustomizedContent.getMaxChars rw)%nat <-> (100 < rw)%Q)
      /\ ((12 <= CustomizedContent.getMaxChars rw)%nat <-> (70 < rw)%Q)
      /\ In (CustomizedContent.getMaxChars rw) [8; 12; 16; 22; 28]%nat)
  /\ ((rw <= rw')%Q -> (rh <= rh')%Q ->
      CustomizedContent.getFontSize rw rh
      <= CustomizedContent.getFontSize rw' rh'
      /\ (CustomizedContent.getMaxChars rw
          <= CustomizedContent.getMaxChars rw')%nat).
Proof.
  split; [|split].
  - unfold CustomizedContent.getFontSize.
    split_thresholds; cbn [In];
      repeat split; intros; try lia; try lra; try tauto;
      try (exfalso; lra).
  - unfold CustomizedContent.getMaxChars.
    split_thresholds; cbn [In];
      repeat split; intros; try lia; try lra; try tauto;
      try (exfalso; lra).
  - intros Hw Hh; split.
    + unfold CustomizedContent.getFontSize.
      split_thresholds; try lia; exfalso; lra.
    + unfold CustomizedContent.getMaxChars.
      split_thresholds; try lia; exfalso; lra.
Qed.

Lemma label_density_monotone_witness :
  CustomizedContent.getFontSize 80 40 = 9
  /\ CustomizedContent.getFontSize 160 70 = 13
  /\ CustomizedContent.getMaxChars 80 = 12%nat
  /\ CustomizedContent.getMaxChars 160 = 22%nat
  /\ CustomizedContent.getFontSize 80 40 <= CustomizedContent.getFontSize 160 70
  /\ (CustomizedContent.getMaxChars 80 <= CustomizedContent.getMaxChars 160)%nat.
Proof.
  destruct (label_density_monotone 80 40 160 70) as (_ & _ & H).
  destruct H as (H1 & H2).
  - apply Qle_bool_iff; reflexivity.
  - apply Qle_bool_iff; reflexivity.
  - repeat split; try reflexivity; assumption.
Defined.

(** The two cases of [truncateName] and the length it returns. *)
Lemma truncateName_cases (str : jsstring) (maxLen : nat) :
  ((List.length str <= maxLen)%nat ->
     CustomizedContent.truncateName str maxLen = str)
  /\ ((maxLen < List.length str)%nat ->
      CustomizedContent.truncateName str maxLen
      = firstn (maxLen - 1) str ++ [CustomizedContent.ellipsis])
  /\ ((1 <= maxLen)%nat ->
      (List.length (CustomizedContent.truncateName str maxLen) <= maxLen)%nat).
Proof.
  unfold CustomizedContent.truncateName.
  destruct str as [|c r]; cbn [App.nonEmpty negb].
  - repeat split; intros; simpl in *; lia.
  - destruct (Nat.ltb_spec maxLen (List.length (c :: r))) as [H | H];
      repeat split; intros H'; try reflexivity; try lia.
    rewrite length_app, length_firstn; simpl List.length in *; lia.
Qed.

(** X19. A name is never shown longer than the budget: a name that fits is
    shown unchanged, a longer one is cut to the budget less one and closed
    with an ellipsis, which makes exactly the budget. *)
Theorem truncateName_fits (str : jsstring) (maxLen : nat) :
  ((List.length str <= maxLen)%nat ->
     CustomizedContent.truncateName str maxLen = str)
  /\ ((maxLen < List.length str)%nat ->
      CustomizedContent.truncateName str maxLen
      = firstn (maxLen - 1) str ++ [CustomizedContent.ellipsis])
  /\ ((1 <= maxLen)%nat ->
      (List.length (CustomizedContent.truncateName str maxLen) <= maxLen)%nat).
Proof. exact (truncateName_cases str maxLen). Qed.

Lemma truncateName_fits_witness :
  CustomizedContent.truncateName (lit "Acme Consulting") 8
  = lit "Acme Co" ++ [CustomizedContent.ellipsis]
  /\ (List.length (CustomizedContent.truncateName (lit "Acme Consulting") 8)
      <= 8)%nat.
Proof.
  destruct (truncateName_fits (lit "Acme Consulting") 8) as (_ & H2 & H3).
  split.
  - rewrite H2; [reflexivity | simpl; lia].
  - apply H3; lia.
Defined.

Lemma qmax_minus_gutter_lt (w c : Q) :
  (0 < c)%Q -> (Qmax (w - 4 * 2) 0 < c <-> w < c + 8)%Q.
Proof.
  intros Hc.
  rewrite Q.max_lub_lt_iff.
  split; [intros [H _]; lra | intros H; split; lra].
Qed.

Lemma qmax_minus_gutter_ge (w c : Q) :
  (0 < c)%Q -> (c <= Qmax (w - 4 * 2) 0)%Q -> (Qmax (w - 4 * 2) 0 == w - 8)%Q.
Proof.
  intros Hc H.
  destruct (Q.max_spec (w - 4 * 2) 0) as [[H1 H2] | [H1 H2]];
    rewrite H2 in H |- *; lra.
Qed.

(** X20. A box is drawn exactly when the node is not the root and its cell
    is at least 23 wide and 20 high; the rectangle drawn then lies inside the
    cell with a margin of 4 on every side. *)
Theorem box_drawn_inside_cell (p : CustomizedContent.Props) :
  (CustomizedContent.render p = None
   <-> CustomizedContent.depth p = 0%nat
       \/ (CustomizedContent.width p < 23)%Q
       \/ (CustomizedContent.height p < 20)%Q)
  /\ forall r, CustomizedContent.render p = Some r ->
       (CustomizedContent.rect_x r == CustomizedContent.x p + 4)%Q
       /\ (CustomizedContent.rect_y r == CustomizedContent.y p + 4)%Q
       /\ (CustomizedContent.rect_x r + CustomizedContent.rect_width r
           == CustomizedContent.x p + CustomizedContent.width p - 4)%Q
       /\ (CustomizedContent.rect_y r + CustomizedContent.rect_height r
           == CustomizedContent.y p + CustomizedContent.height p - 4)%Q
       /\ (15 <= CustomizedContent.rect_width r)%Q
       /\ (12 <= CustomizedContent.rect_height r)%Q.
Proof.
  unfold CustomizedContent.render.
  destruct (Nat.eqb_spec (CustomizedContent.depth p) 0) as [Hd | Hd].
  - split; [split; auto | intros r H; discriminate H].
  - destruct (qltb_spec (Qmax (CustomizedContent.width p - 4 * 2) 0) 15)
      as [Hw | Hw]; cbn [orb].
    + split; [|intros r H; discriminate H].
      split; [intros _|reflexivity].
      right; left; apply qmax_minus_gutter_lt in Hw; lra.
    + destruct (qltb_spec (Qmax (CustomizedContent.height p - 4 * 2) 0) 12)
        as [Hh | Hh].
      * split; [|intros r H; discriminate H].
        split; [intros _|reflexivity].
        right; right; apply qmax_minus_gutter_lt in Hh; lra.
      * pose proof (qmax_minus_gutter_ge _ 15 ltac:(lra) Hw) as Ew.
        pose proof (qmax_minus_gutter_ge _ 12 ltac:(lra) Hh) as Eh.
        split.
        -- split; [discriminate|].
           intros [H | [H | H]]; [contradiction | exfalso; lra | exfalso; lra].
        -- intros r H; injection H as <-.
           cbn [CustomizedContent.rect_x CustomizedContent.rect_y
                CustomizedContent.rect_width CustomizedContent.rect_height].
           repeat split; try assumption; try rewrite Ew; try rewrite Eh; ring.
Qed.

Lemma box_drawn_inside_cell_witness :
  let p :=
    CustomizedContent.propsOf
      (TreeMapChart.toEntry (lit "references") (Num 12)
         (App.enhance toLowerCaseBasic Catalogue.acme) 0)
      (lit "references") 0 0 200 100 0 1 in
  exists r, CustomizedContent.render p = Some r
            /\ (15 <= CustomizedContent.rect_width r)%Q.
Proof.
  intros p.
  assert (H : exists r, CustomizedContent.render p = Some r)
    by (eexists; vm_compute; reflexivity).
  destruct H as (r & E).
  exists r; split; [exact E|].
  apply (proj2 (box_drawn_inside_cell p) r E).
Defined.

(** X21. In a drawn box the stat line appears only together with the name:
    the name needs the rectangle wider than 35 and higher than 20, the stat
    line wider than 70 and higher than 45 and a metric above zero; with a
    stat line the name is set in a font of at least 9, is at most 28 code
    units long, and sits 18 above the stat line. *)
Theorem stat_line_only_with_label (p : CustomizedContent.Props)
    (r : CustomizedContent.Rendered) :
  CustomizedContent.render p = Some r ->
  (forall lb, CustomizedContent.label r = Some lb ->
     (35 < CustomizedContent.rect_width r)%Q
     /\ (20 < CustomizedContent.rect_height r)%Q
     /\ (List.length (CustomizedContent.text lb) <= 28)%nat)
  /\ (forall st, CustomizedContent.statLine r = Some st ->
        (70 < CustomizedContent.rect_width r)%Q
        /\ (45 < CustomizedContent.rect_height r)%Q
        /\ CustomizedContent.getStatDisplay p = Some (CustomizedContent.stat st)
        /\ exists lb,
             CustomizedContent.label r = Some lb
             /\ 9 <= CustomizedContent.fontSize lb
             /\ (CustomizedContent.stat_y st - CustomizedContent.label_y lb
                 == 18)%Q).
Proof.
  unfold CustomizedContent.render.
  destruct (CustomizedContent.depth p =? 0)%nat; [discriminate|].
  set (rw := Qmax (CustomizedContent.width p - 4 * 2) 0).
  set (rh := Qmax (CustomizedContent.height p - 4 * 2) 0).
  destruct (CustomizedContent.qltb rw 15 || CustomizedContent.qltb rh 12);
    [discriminate|].
  intros H; injection H as <-.
  cbn [CustomizedContent.label CustomizedContent.statLine
       CustomizedContent.rect_width CustomizedContent.rect_height].
  split.
  - intros lb.
    destruct (qgtb_spec rw 35) as [Hw | Hw]; cbn [andb]; [|discriminate].
    destruct (qgtb_spec rh 20) as [Hh | Hh]; [|discriminate].
    intros E; injection E as <-; cbn [CustomizedContent.text].
    repeat split; try assumption.
    destruct (truncateName_cases (CustomizedContent.name p)
                (CustomizedContent.getMaxChars rw)) as (_ & _ & Hlen).
    pose proof (getMaxChars_range rw) as Hc.
    simpl in Hc.
    assert (1 <= CustomizedContent.getMaxChars rw <= 28)%nat by lia.
    specialize (Hlen ltac:(lia)); lia.
  - intros st.
    destruct (CustomizedContent.getStatDisplay p) as [sd|]; [|discriminate].
    destruct (qgtb_spec rw 70) as [Hw | Hw]; cbn [andb]; [|discriminate].
    destruct (qgtb_spec rh 45) as [Hh | Hh]; [|discriminate].
    intros E; injection E as <-;
      cbn [CustomizedContent.stat CustomizedContent.stat_y].
    repeat split; try assumption.
    destruct (qgtb_spec rw 35) as [Hw' | Hw']; [|exfalso; lra].
    destruct (qgtb_spec rh 20) as [Hh' | Hh']; [|exfalso; lra].
    cbn [andb]; eexists; split; [reflexivity|].
    cbn [CustomizedContent.fontSize CustomizedContent.label_y]; split.
    + unfold CustomizedContent.getFontSize.
      split_thresholds; try lia; exfalso; lra.
    + ring.
Qed.

Lemma stat_line_only_with_label_witness :
  let p :=
    CustomizedContent.propsOf
      (TreeMapChart.toEntry (lit "references") (Num 12)
         (App.enhance toLowerCaseBasic Catalogue.acme) 0)
      (lit "references") 0 0 200 100 0 1 in
  exists r st lb,
    CustomizedContent.render p = Some r
    /\ CustomizedContent.statLine r = Some st
    /\ CustomizedContent.label r = Some lb
    /\ 9 <= CustomizedContent.fontSize lb.
Proof.
  intros p.
  assert (H : exists r st,
            CustomizedContent.render p = Some r
            /\ CustomizedContent.statLine r = Some st)
    by (eexists; eexists; split; vm_compute; reflexivity).
  destruct H as (r & st & E & Est).
  destruct (proj2 (stat_line_only_with_label p r E) st Est)
    as (_ & _ & _ & lb & El & Hf & _).
  exists r, st, lb; repeat split; assumption.
Defined.

(** ** Chart entries *)

Lemma chartData_perm (ps : list App.Partner) (areaMetric : jsstring)
    (maxMetric : jsnum) :
  Permutation (TreeMapChart.chartData ps areaMetric maxMetric)
    (TreeMapChart.mapIndexed (TreeMapChart.toEntry areaMetric maxMetric) 0 ps).
Proof.
  destruct ps as [|p ps]; [reflexivity | apply sortBy_perm].
Qed.

Lemma chartData_In (ps : list App.Partner) (areaMetric : jsstring)
    (maxMetric : jsnum) (e : TreeMapChart.ChartEntry) :
  In e (TreeMapChart.chartData ps areaMetric maxMetric) ->
  exists p i, nth_error ps i = Some p
              /\ e = TreeMapChart.toEntry areaMetric maxMetric p i.
Proof.
  intros H.
  apply (Permutation_in _ (chartData_perm ps areaMetric maxMetric)) in H.
  apply mapIndexed_In in H; destruct H as (p & i & Hi & ->).
  exists p, i; auto.
Qed.

Lemma mapIndexed_index (areaMetric : jsstring) (maxMetric : jsnum)
    (ps : list App.Partner) (i : nat) :
  map TreeMapChart.index
    (TreeMapChart.mapIndexed (TreeMapChart.toEntry areaMetric maxMetric) i ps)
  = seq i (List.length ps).
Proof.
  revert i; induction ps as [|p ps IH]; intros i; simpl; [reflexivity|].
  rewrite IH; reflexivity.
Qed.

(** X22. The chart holds one entry per partner, the empty list included,
    and each entry's [index] is the position of its partner in the list
    given: the indexes are 0 up to the length less one, each once. *)
Theorem chartData_entries_indexed (ps : list App.Partner)
    (areaMetric : jsstring) (maxMetric : jsnum) :
  let entries := TreeMapChart.chartData ps areaMetric maxMetric in
  List.length entries = List.length ps
  /\ Permutation (map TreeMapChart.index entries) (seq 0 (List.length ps))
  /\ forall e, In e entries ->
       exists p,
         nth_error ps (TreeMapChart.index e) = Some p
         /\ e = TreeMapChart.toEntry areaMetric maxMetric p
                  (TreeMapChart.index e).
Proof.
  cbv zeta.
  pose proof (chartData_perm ps areaMetric maxMetric) as P.
  split; [|split].
  - rewrite (Permutation_length P).
    rewrite <- (length_map TreeMapChart.index), mapIndexed_index.
    apply length_seq.
  - rewrite <- (mapIndexed_index areaMetric maxMetric ps 0).
    apply Permutation_map; exact P.
  - intros e He.
    destruct (chartData_In ps areaMetric maxMetric e He) as (p & i & Hi & ->).
    exists p; split; [exact Hi | reflexivity].
Qed.

(** X23. The number printed in a box is the value that sized it: when the
    stat line shows '%v' the metric is 'district' and the entry's size is v,
    when it shows 'v Ref' the metric is another one and the size is v; a
    partner whose metric was raised to the size 1 from 0 shows no stat. *)
Theorem stat_shown_is_sizing_value (areaMetric : jsstring)
    (maxMetric : jsnum) (p : App.Partner) (i : nat)
    (x y width height : Q) (index depth : nat)
    (st : CustomizedContent.Stat) :
  let e := TreeMapChart.toEntry areaMetric maxMetric p i in
  CustomizedContent.getStatDisplay
    (CustomizedContent.propsOf e areaMetric x y width height index depth)
  = Some st ->
  exists v,
    0 < v
    /\ TreeMapChart.size e = Num v
    /\ ((areaMetric = lit "district"
         /\ st = CustomizedContent.Percent v
         /\ App.districtValue p = Num v)
        \/ (areaMetric <> lit "district"
            /\ st = CustomizedContent.Ref v
            /\ App.references p = Num v)).
Proof.
  cbv zeta.
  unfold CustomizedContent.getStatDisplay, CustomizedContent.propsOf,
    TreeMapChart.toEntry;
    cbn [CustomizedContent.areaMetric CustomizedContent.districtValue
         CustomizedContent.references TreeMapChart.districtValue
         TreeMapChart.references TreeMapChart.size].
  destruct (jsstring_eqb areaMetric (lit "district")) eqn:E.
  - apply jsstring_eqb_eq in E.
    destruct (App.districtValue p) as [|v]; [discriminate|]; simpl.
    destruct (Z.ltb_spec 0 v) as [Hv | Hv]; [|discriminate].
    intros H; injection H as <-.
    exists v; repeat split; [exact Hv | f_equal; lia | left; auto].
  - assert (Hne : areaMetric <> lit "district").
    { intros H; apply jsstring_eqb_eq in H; congruence. }
    destruct (App.references p) as [|v]; [discriminate|]; simpl.
    destruct (Z.ltb_spec 0 v) as [Hv | Hv]; [|discriminate].
    intros H; injection H as <-.
    exists v; repeat split; [exact Hv | f_equal; lia | right; auto].
Qed.

Lemma stat_shown_is_sizing_value_witness :
  TreeMapChart.size
    (TreeMapChart.toEntry (lit "district") (Num 12)
       (App.enhance toLowerCaseBasic Catalogue.acme) 0) = Num 85.
Proof.
  destruct (stat_shown_is_sizing_value (lit "district") (Num 12)
              (App.enhance toLowerCaseBasic Catalogue.acme) 0
              0 0 200 100 0 1 (CustomizedContent.Percent 85) eq_refl)
    as (v & _ & Hs & [(_ & Hst & _) | (Hne & _)]).
  - injection Hst as <-; exact Hs.
  - exfalso; apply Hne; reflexivity.
Defined.

(** X24. Every entry that [chartData] builds from a list the filter
    pipeline produced, for a loaded dataset and any search text and filter
    state, has a size that is a number of at least 1, under either metric.
    The unfiltered list the load callback hands over first is not such a
    list: from a partner whose references value is [NaN] the entry built
    under a metric other than 'district' has the size [NaN]. *)
Theorem chart_sizes_at_least_one (toLowerCase : jsstring -> jsstring)
    (data : list App.RawPartner) (q : jsstring) (f : App.Filters)
    (areaMetric : jsstring) (maxMetric : jsnum) :
  let visible :=
    App.applyFilters toLowerCase (map (App.enhance toLowerCase) data) q f in
  (forall e,
     In e (TreeMapChart.chartData visible areaMetric maxMetric) ->
     exists v, TreeMapChart.size e = Num v /\ 1 <= v)
  /\ (forall p i,
        App.references p = NaN ->
        areaMetric <> lit "district" ->
        TreeMapChart.size (TreeMapChart.toEntry areaMetric maxMetric p i)
        = NaN).
Proof.
  cbv zeta; split.
  - intros e He.
    destruct (chartData_In _ _ _ _ He) as (p & i & Hi & ->).
    apply nth_error_In in Hi.
    rewrite applyFilters_filter, filter_In, passesCriteria_iff in Hi.
    destruct Hi as (Hp & _ & _ & (lo & r & hi & _ & Er & _) & _).
    apply in_map_iff in Hp; destruct Hp as (rp & <- & _).
    destruct (districtValue_is_number toLowerCase rp) as (d & Ed).
    cbn [TreeMapChart.toEntry TreeMapChart.size].
    destruct (jsstring_eqb areaMetric (lit "district")).
    + rewrite Ed; exists (Z.max d 1); split; [reflexivity | lia].
    + rewrite Er; exists (Z.max r 1); split; [reflexivity | lia].
  - intros p i Er Hne.
    cbn [TreeMapChart.toEntry TreeMapChart.size].
    destruct (jsstring_eqb areaMetric (lit "district")) eqn:E.
    + apply jsstring_eqb_eq in E; contradiction.
    + rewrite Er; reflexivity.
Qed.

Lemma chart_sizes_at_least_one_witness :
  let visible :=
    App.applyFilters toLowerCaseBasic Catalogue.enhanced [] Catalogue.noLevels in
  (exists e v,
     In e (TreeMapChart.chartData visible (lit "district") (Num 12))
     /\ App.districtValue (App.enhance toLowerCaseBasic Catalogue.acme2) = Num 0
     /\ TreeMapChart.size e = Num v /\ 1 <= v)
  /\ TreeMapChart.size
       (TreeMapChart.toEntry (lit "references") (Num 12)
          (App.enhance toLowerCaseBasic Catalogue.unparsable) 0) = NaN.
Proof.
  cbv zeta.
  destruct (chart_sizes_at_least_one toLowerCaseBasic Catalogue.data []
              Catalogue.noLevels (lit "district") (Num 12)) as [Hsize _].
  destruct (chart_sizes_at_least_one toLowerCaseBasic Catalogue.data []
              Catalogue.noLevels (lit "references") (Num 12)) as [_ HNaN].
  split.
  - set (e := TreeMapChart.toEntry (lit "district") (Num 12)
                (App.enhance toLowerCaseBasic Catalogue.acme2) 1).
    assert (He : In e (TreeMapChart.chartData
                         (App.applyFilters toLowerCaseBasic
                            (map (App.enhance toLowerCaseBasic) Catalogue.data)
                            [] Catalogue.noLevels)
                         (lit "district") (Num 12)))
      by (right; left; reflexivity).
    destruct (Hsize e He) as (v & Es & Hv).
    exists e, v; repeat split; assumption.
  - apply HNaN; [reflexivity | discriminate].
Defined.



(** ** Searching *)

Lemma startsWith_prefix (s q : jsstring) :
  startsWith s q = true <-> exists post, s = q ++ post.
Proof.
  revert s; induction q as [|y q IH]; intros [|x s]; simpl.
  - split; [intros _; exists []; reflexivity | reflexivity].
  - split; [intros _; exists (x :: s); reflexivity | reflexivity].
  - split; [discriminate | intros (post & H); discriminate H].
  - rewrite andb_true_iff, N.eqb_eq, IH; split.
    + intros [-> (post & ->)]; exists post; reflexivity.
    + intros (post & H); injection H as -> ->; split; [reflexivity|].
      exists post; reflexivity.
Qed.

Lemma includes_substring (s q : jsstring) :
  includes s q = true <-> Ref.Substring q s.
Proof.
  unfold Ref.Substring.
  induction s as [|x s IH]; cbn [includes]; rewrite orb_true_iff.
  - rewrite startsWith_prefix; split.
    + intros [(post & H) | H]; [exists [], post; exact H | discriminate H].
    + intros (pre & post & H).
      destruct pre as [|a pre]; [left; exists post; exact H | discriminate H].
  - rewrite startsWith_prefix, IH; split.
    + intros [(post & H) | (pre & post & H)].
      * exists [], post; exact H.
      * exists (x :: pre), post; rewrite H; reflexivity.
    + intros (pre & post & H).
      destruct pre as [|a pre].
      * left; exists post; exact H.
      * right; injection H as _ H; exists pre, post; exact H.
Qed.

Lemma matchesSearch_substring (toLowerCase : jsstring -> jsstring)
    (query : jsstring) (p : App.Partner) :
  App.matchesSearch toLowerCase query p = true
  <-> Ref.Substring query (toLowerCase (App.name (App.raw p)))
      \/ exists c, App.displayCity p = Some c
                   /\ Ref.Substring query (toLowerCase c).
Proof.
  unfold App.matchesSearch.
  rewrite orb_true_iff, includes_substring.
  destruct (App.displayCity p) as [c|].
  - rewrite includes_substring; split.
    + intros [H | H]; [left; exact H | right; exists c; auto].
    + intros [H | (c' & E & H)]; [left; exact H|].
      injection E as <-; right; exact H.
  - split.
    + intros [H | H]; [left; exact H | discriminate H].
    + intros [H | (c' & E & _)]; [left; exact H | discriminate E].
Qed.

(** X26. Typing a search text narrows what the other filters show to the
    partners whose lowercased name, or lowercased display city, has the
    lowercased text as a contiguous part. *)
Theorem search_narrows_by_substring (toLowerCase : jsstring -> jsstring)
    (ps : list App.Partner) (q : jsstring) (f : App.Filters)
    (p : App.Partner) :
  q <> [] ->
  In p (App.applyFilters toLowerCase ps q f)
  <-> In p (App.applyFilters toLowerCase ps [] f)
      /\ (Ref.Substring (toLowerCase q) (toLowerCase (App.name (App.raw p)))
          \/ exists c, App.displayCity p = Some c
                       /\ Ref.Substring (toLowerCase q) (toLowerCase c)).
Proof.
  intros Hq.
  rewrite <- matchesSearch_substring.
  rewrite !applyFilters_filter, !filter_In.
  unfold Spec.passesCriteria.
  destruct q as [|c0 q0]; [congruence|].
  cbn [App.nonEmpty negb orb].
  rewrite !andb_true_iff; tauto.
Qed.

Lemma search_narrows_by_substring_witness :
  In (App.enhance toLowerCaseBasic Catalogue.acme)
     (App.applyFilters toLowerCaseBasic Catalogue.enhanced (lit "ANK")
        Catalogue.noLevels).
Proof.
  apply (search_narrows_by_substring toLowerCaseBasic Catalogue.enhanced
           (lit "ANK") Catalogue.noLevels).
  - discriminate.
  - split; [left; reflexivity|].
    right; exists (lit "Ankara"); split; [reflexivity|].
    exists [], (lit "ara"); reflexivity.
Defined.

(** ** Switching the metric and toggling twice *)

Lemma passesCriteria_same_selection (toLowerCase : jsstring -> jsstring)
    (q : jsstring) (f f' : App.Filters) (p : App.Partner) :
  (forall y, In y (App.levels f) <-> In y (App.levels f')) ->
  (forall y, In y (App.selectedCities f) <-> In y (App.selectedCities f')) ->
  App.minReferences f = App.minReferences f' ->
  App.maxReferences f = App.maxReferences f' ->
  Spec.passesCriteria toLowerCase q f p = Spec.passesCriteria toLowerCase q f' p.
Proof.
  intros Hl Hc Hmin Hmax.
  apply eq_true_iff_eq; rewrite !passesCriteria_iff.
  unfold Spec.Criteria; rewrite Hmin, Hmax.
  assert (Hne : App.levels f <> [] <-> App.levels f' <> []).
  { destruct (App.levels f) as [|a l], (App.levels f') as [|a' l'];
      split; intros H; try congruence; exfalso.
    - apply (proj2 (Hl a')); left; reflexivity.
    - apply (proj1 (Hl a)); left; reflexivity. }
  split; intros (H1 & H2 & H3 & c & Ec & H4);
    (split; [exact H1 | split; [|split; [exact H3|]]]).
  - intros H; destruct (H2 (proj2 Hne H)) as (lv & E & Hin).
    exists lv; split; [exact E | apply Hl; exact Hin].
  - exists c; split; [exact Ec | apply Hc; exact H4].
  - intros H; destruct (H2 (proj1 Hne H)) as (lv & E & Hin).
    exists lv; split; [exact E | apply Hl; exact Hin].
  - exists c; split; [exact Ec | apply Hc; exact H4].
Qed.

Lemma toggle_twice_In (x y : jsstring) (l : list jsstring) :
  In y (App.toggle x (App.toggle x l)) <-> In y l.
Proof.
  rewrite !toggle_In.
  destruct (jsstring_eqb y x) eqn:E.
  - apply jsstring_eqb_eq in E; subst y.
    assert (D : In x l \/ ~ In x l).
    { destruct (App.arrayIncludes l x) eqn:Ex.
      - left; apply arrayIncludes_In; exact Ex.
      - right; intros H; apply arrayIncludes_In in H; congruence. }
    tauto.
  - assert (Hne : y <> x).
    { intros H; apply jsstring_eqb_eq in H; congruence. }
    tauto.
Qed.

(** X27. Toggling the same tier, or the same city, twice brings back the
    visible subset there was, whether the box was ticked or not: the partners
    shown, and their order, are the same. *)
Theorem toggling_twice_restores_visible (toLowerCase : jsstring -> jsstring)
    (s : App.AppState) (x : jsstring) :
  let twice e :=
    App.runFilterEffect toLowerCase
      (App.handle toLowerCase e
         (App.runFilterEffect toLowerCase (App.handle toLowerCase e s))) in
  App.filteredPartners (twice (App.ToggleLevel x))
  = App.filteredPartners (App.runFilterEffect toLowerCase s)
  /\ App.filteredPartners (twice (App.ToggleCity x))
     = App.filteredPartners (App.runFilterEffect toLowerCase s).
Proof.
  cbv zeta.
  cbn [App.runFilterEffect App.handle App.setFilters App.setFilteredPartners
       App.filteredPartners App.partners App.searchQuery App.filters].
  rewrite !applyFilters_filter.
  split; apply filter_ext; intros p; apply passesCriteria_same_selection;
    cbn [App.levels App.selectedCities App.minReferences App.maxReferences];
    try reflexivity; intros y; try apply toggle_twice_In.
Qed.

(** X28. Unticking a selected city hides the partners of that city and no
    other: the new visible subset is the old one without the partners whose
    display city it is. *)
Theorem deselecting_city_hides_its_partners
    (toLowerCase : jsstring -> jsstring) (s : App.AppState) (c : jsstring) :
  In c (App.selectedCities (App.filters s)) ->
  let s' :=
    App.runFilterEffect toLowerCase
      (App.handle toLowerCase (App.ToggleCity c) s) in
  ~ In c (App.selectedCities (App.filters s'))
  /\ forall p,
       In p (App.filteredPartners s')
       <-> In p (App.filteredPartners (App.runFilterEffect toLowerCase s))
           /\ App.displayCity p <> Some c.
Proof.
  intros Hc; cbv zeta.
  cbn [App.runFilterEffect App.handle App.setFilters App.setFilteredPartners
       App.filteredPartners App.partners App.searchQuery App.filters
       App.selectedCities].
  split.
  - rewrite toggle_In; intros [[_ H] | [H _]]; [contradiction | congruence].
  - intros p.
    rewrite !applyFilters_filter, !filter_In, !passesCriteria_iff.
    unfold Spec.Criteria;
      cbn [App.levels App.selectedCities App.minReferences App.maxReferences].
    split.
    + intros (Hp & H1 & H2 & H3 & c' & Ec & Hin).
      apply toggle_In in Hin; destruct Hin as [[-> Hn] | [Hne Hin]];
        [contradiction|].
      split; [|rewrite Ec; congruence].
      split; [exact Hp | split; [exact H1 | split; [exact H2 | split; [exact H3|]]]].
      exists c'; auto.
    + intros ((Hp & H1 & H2 & H3 & c' & Ec & Hin) & Hne).
      split; [exact Hp | split; [exact H1 | split; [exact H2 | split; [exact H3|]]]].
      exists c'; split; [exact Ec|].
      apply toggle_In; right; split; [|exact Hin].
      intros ->; apply Hne; exact Ec.
Qed.

Lemma deselecting_city_hides_its_partners_witness :
  let s' :=
    App.runFilterEffect toLowerCaseBasic
      (App.handle toLowerCaseBasic (App.ToggleCity (lit "Izmir"))
         Catalogue.searched) in
  ~ In (lit "Izmir") (App.selectedCities (App.filters s')).
Proof.
  assert (Hin : In (lit "Izmir")
                  (App.selectedCities (App.filters Catalogue.searched)))
    by (vm_compute; right; left; reflexivity).
  exact (proj1 (deselecting_city_hides_its_partners toLowerCaseBasic
                  Catalogue.searched (lit "Izmir") Hin)).
Defined.



Lemma toggle_flips_one_checkbox_witness :
  let f := App.filters Catalogue.searched in
  let fl :=
    App.filters
      (App.handle toLowerCaseBasic (App.ToggleLevel (lit "Silver"))
         Catalogue.searched) in
  App.arrayIncludes (App.levels fl) (lit "Silver") = false
  /\ App.arrayIncludes (App.levels fl) (lit "Gold")
     = App.arrayIncludes (App.levels f) (lit "Gold").
Proof.
  cbv zeta.
  destruct (toggle_flips_one_checkbox toLowerCaseBasic Catalogue.searched
              (lit "Silver")) as ((H1 & H2 & _) & _).
  split.
  - rewrite H1; reflexivity.
  - apply H2; discriminate.
Defined.

Lemma chartData_entries_indexed_witness :
  let entries :=
    TreeMapChart.chartData Catalogue.enhanced (lit "district") (Num 12) in
  map TreeMapChart.index entries = [0; 2; 1]%nat
  /\ forall e, In e entries ->
       exists p,
         nth_error Catalogue.enhanced (TreeMapChart.index e) = Some p
         /\ e = TreeMapChart.toEntry (lit "district") (Num 12) p
                  (TreeMapChart.index e).
Proof.
  cbv zeta; split; [reflexivity|].
  apply (chartData_entries_indexed Catalogue.enhanced (lit "district") (Num 12)).
Defined.
